(** * Galois Python bindings: Numba overloads of [PropertyGraph] and the
      [TemplateType1] metaclass

    A shallow embedding of

    - [python/galois/numba/galois.py]: the overloads that make a property
      graph usable from compiled code ([len], [nodes], [edges]);
    - [python/galois/util/template_type.py]: the metaclass [TemplateType1]
      and its factory [make_template_type1].

    Python values are modelled by the data they carry, exceptions by an
    explicit result type, the insertion-ordered [dict] by an association
    list, and class namespaces (whose order is irrelevant) by [gmap]. *)

From Stdlib Require Import ZArith NArith Lia String List Bool Sorted.
From stdpp Require Import base decidable list strings gmap.

Import ListNotations.
Local Open Scope string_scope.
Local Open Scope N_scope.
Local Open Scope list_scope.

(** ** Exceptions and results *)

(** The exceptions that the embedded code can raise.  [IndexOutOfRange] is
    the error that the specification attaches to [edge_index]; the others
    are Python's own ([ValueError] is what class creation raises on a
    namespace it rejects). *)
Inductive PyExc : Type :=
| IndexOutOfRange
| StopIteration
| KeyError
| AttributeError
| TypeError (msg : string)
| ValueError (msg : string).

Inductive PyResult (A : Type) : Type :=
| Ok (a : A)
| Raise (e : PyExc).

Arguments Ok {A} a.
Arguments Raise {A} e.

Definition bind {A B : Type} (m : PyResult A) (k : A -> PyResult B) : PyResult B :=
  match m with
  | Ok a => k a
  | Raise e => Raise e
  end.

Notation "'do' x <- m ; k" := (bind m (fun x => k))
  (at level 10, x name, m at level 100, k at level 200).

(** Evaluating a Python call on every element of a list, left to right,
    stopping at the first exception. *)
Fixpoint for_each {A B : Type} (f : A -> PyResult B) (l : list A) : PyResult (list B) :=
  match l with
  | [] => Ok []
  | a :: l' => do b <- f a; do bs <- for_each f l'; Ok (b :: bs)
  end.

(** The names under which the specification knows the Python exceptions of
    [template_type.py]: an exhausted [next(iter(...))] at build time, a
    failed dictionary subscript, and the [TypeError] of the constructor
    stub. *)
Definition EmptyRegistryError : PyExc := StopIteration.
Definition UnknownVariantError : PyExc := KeyError.
Definition DirectInstantiationError (msg : string) : PyExc := TypeError msg.

(** ** Python's [range] *)

Module Range.

(** [range(start, stop)] with the default step of one. *)
Record PyRange : Type := mkRange { start : N; stop : N }.

(** [range(stop)] *)
Definition range1 (n : N) : PyRange := mkRange 0 n.

(** [range(start, stop)] *)
Definition range2 (a b : N) : PyRange := mkRange a b.

(** The iterator that [iter(r)] creates: the next value and the bound. *)
Record RangeIter : Type := mkIter { it_next : N; it_stop : N }.

Definition iter (r : PyRange) : RangeIter := mkIter (start r) (stop r).

(** [next(it)]: the value produced and the advanced iterator, or
    [StopIteration] with the iterator unchanged. *)
Definition next (it : RangeIter) : PyResult N * RangeIter :=
  if it_next it <? it_stop it
  then (Ok (it_next it), mkIter (N.succ (it_next it)) (it_stop it))
  else (Raise StopIteration, it).

(** Calling [next] until [StopIteration], at most [fuel] times. *)
Fixpoint drain (fuel : nat) (it : RangeIter) : list N * RangeIter :=
  match fuel with
  | O => ([], it)
  | S fuel' =>
      match next it with
      | (Ok v, it') => let (vs, it'') := drain fuel' it' in (v :: vs, it'')
      | (Raise _, it') => ([], it')
      end
  end.

(** The number of values an iterator still has to give. *)
Definition remaining (it : RangeIter) : nat :=
  N.to_nat (it_stop it - it_next it).

(** A [for] loop over an iterator: [remaining] calls give every value. *)
Definition exhaust (it : RangeIter) : list N * RangeIter :=
  drain (remaining it) it.

(** [list(r)] *)
Definition to_list (r : PyRange) : list N := fst (exhaust (iter r)).

(** [len(r)] *)
Definition len (r : PyRange) : N := stop r - start r.

End Range.

Import Range.

(** ** The property graph seen by [galois.py] *)

Module Graph.

(** The topology of a property graph: the compressed-sparse-row arrays
    handed over by the loader.  [out_indices] holds, for every node, the
    end of its slice of [out_dests]. *)
Record PropertyGraph : Type := mkGraph {
  out_indices : list N;
  out_dests : list N
}.

(** Modelled from the spec: [num_nodes] is a method of
    [galois.property_graph.PropertyGraph], which is not among the sources;
    the specification gives the node count as the number of entries of
    the edge-range-end array. *)
Definition num_nodes (self : PropertyGraph) : N :=
  N.of_nat (length (out_indices self)).

(** Modelled from the spec: the edge count is the length of the
    edge-destination array. *)
Definition num_edges (self : PropertyGraph) : N :=
  N.of_nat (length (out_dests self)).

(** Modelled from the spec: [edge_index] (the specification's
    [edge_range_end]) is a method of
    [galois.property_graph.PropertyGraph], which is not among the sources.
    The specification requires [0 <= node < node_count()], answers with
    the exclusive upper bound of the node's slice, and makes anything
    else an [IndexOutOfRange] error, checked and never clamped. *)
Definition edge_index (self : PropertyGraph) (n : N) : PyResult N :=
  if n <? num_nodes self
  then match out_indices self !! N.to_nat n with
       | Some e => Ok e
       | None => Raise IndexOutOfRange
       end
  else Raise IndexOutOfRange.

(** Numba's view of the type of an argument, as far as the overloads look
    at it. *)
Inductive NumbaType : Type :=
| Integer (signed : bool) (bitwidth : nat)
| PropertyGraphType
| OtherType.

(** [overload_PropertyGraph_len]: [len(self)] is [self.num_nodes()] when
    [self] is a property graph. *)
Definition len_impl (self : PropertyGraph) : N := num_nodes self.

Definition overload_PropertyGraph_len (self : NumbaType)
  : option (PropertyGraph -> N) :=
  match self with
  | PropertyGraphType => Some len_impl
  | _ => None
  end.

(** [overload_PropertyGraph_nodes]: [range(self.num_nodes())]. *)
Definition nodes_impl (self : PropertyGraph) : PyRange :=
  range1 (num_nodes self).

Definition overload_PropertyGraph_nodes (self : NumbaType)
  : option (PropertyGraph -> PyRange) :=
  match self with
  | PropertyGraphType => Some nodes_impl
  | _ => None
  end.

(** [overload_PropertyGraph_edges]: the body that is compiled when [n] is
    an unsigned integer.  [n] is unsigned, hence an [N]; [n - 1] is only
    evaluated when [n] is not zero, so it never goes below zero. *)
Definition edges_impl (self : PropertyGraph) (n : N) : PyResult PyRange :=
  do prev <- (if n =? 0 then Ok 0 else edge_index self (n - 1));
  do e <- edge_index self n;
  Ok (range2 prev e).

Definition overload_PropertyGraph_edges (self n : NumbaType)
  : option (PropertyGraph -> N -> PyResult PyRange) :=
  match self, n with
  | PropertyGraphType, Integer false _ => Some edges_impl
  | _, _ => None
  end.

(** A valid input of the loader interface: the range ends never decrease
    and the last one is the number of edges (no node, no edge). *)
Fixpoint monotone (prev : N) (l : list N) : bool :=
  match l with
  | [] => true
  | x :: l' => (prev <=? x) && monotone x l'
  end.

Definition valid_csr (g : PropertyGraph) : bool :=
  monotone 0 (out_indices g) && (List.last (out_indices g) 0 =? num_edges g).

(** The number of edges in a range of edge identifiers, as an integer
    that may be negative (so that nothing is hidden by truncation). *)
Definition extent (r : PyRange) : Z := Z.of_N (stop r) - Z.of_N (start r).

Definition sum_extents (rs : list PyRange) : Z :=
  fold_right Z.add 0%Z (map extent rs).

End Graph.

Import Graph.

(** ** Python objects, as far as [template_type.py] looks at them *)

(** An object is known by its value or, for an instance of a class, by the
    [__name__] of its type. *)
Inductive PyObj : Type :=
| PyNone
| PyInt (z : Z)
| PyStr (s : string)
| PyInstance (type_name : string).

(** [type(o).__name__] *)
Definition type_name_of (o : PyObj) : string :=
  match o with
  | PyNone => "NoneType"
  | PyInt _ => "int"
  | PyStr _ => "str"
  | PyInstance n => n
  end.

(** What a [__new__] can hand back to the call that constructs an object:
    a new instance of the class it was called on, any other object, or an
    exception. *)
Inductive NewOutcome : Type :=
| NewInstance
| NewOther (o : PyObj)
| NewRaise (e : PyExc).

(** The entries of a class namespace ([cls.__dict__]): class-level data,
    plain functions (called with the receiver first), a static [__new__]
    written in Python (called with the constructor's arguments), and the
    [__new__] of a type implemented in C (a builtin wrapper).  A function
    and its static or class method wrapper are not told apart. *)
Inductive Attr : Type :=
| AData (o : PyObj)
| AFunction (body : list PyObj -> PyResult PyObj)
| AStaticNew (body : list PyObj -> NewOutcome)
| ABuiltinNew.

(** A concrete implementation type: its [__name__], its own namespace
    ([__dict__]) and the namespaces of the classes it inherits from, in the
    order of [__mro__] ([object] left out). *)
Record PyClass : Type := mkClass {
  cls_name : string;
  cls_dict : gmap string Attr;
  cls_inherited : list (gmap string Attr)
}.

(** The first of the namespaces that has the name. *)
Fixpoint mro_lookup (a : string) (namespaces : list (gmap string Attr)) : option Attr :=
  match namespaces with
  | [] => None
  | ns :: rest =>
      match ns !! a with
      | Some x => Some x
      | None => mro_lookup a rest
      end
  end.

(** [cls.a], the attribute as the class itself shows it: its own entry,
    else the first inherited one. *)
Definition class_getattr (c : PyClass) (a : string) : option Attr :=
  mro_lookup a (cls_dict c :: cls_inherited c).

(** The [__name__] of the module whose code calls [type.__new__]. *)
Definition this_module : string := "galois.util.template_type".

(** ** Python's insertion-ordered [dict] *)

Section Dict.
Context {K V : Type} `{EqDecision K}.

(** [d[k]], as an option *)
Fixpoint dict_get (k : K) (d : list (K * V)) : option V :=
  match d with
  | [] => None
  | (k', v) :: d' => if decide (k = k') then Some v else dict_get k d'
  end.

(** [d[k] = v]: an existing key keeps its position and takes the new
    value, a new key goes to the end. *)
Fixpoint dict_set (k : K) (v : V) (d : list (K * V)) : list (K * V) :=
  match d with
  | [] => [(k, v)]
  | (k', v') :: d' =>
      if decide (k = k') then (k', v) :: d' else (k', v') :: dict_set k v d'
  end.

(** [d.keys()] and [d.values()], in insertion order *)
Definition dict_keys (d : list (K * V)) : list K := map fst d.
Definition dict_values (d : list (K * V)) : list V := map snd d.

(** [next(iter(d.values()))] *)
Definition first_value (d : list (K * V)) : PyResult V :=
  match dict_values d with
  | [] => Raise StopIteration
  | v :: _ => Ok v
  end.
End Dict.

(** ** [template_type.py] *)

Section TemplateType.
Context {RawTag DType : Type} `{EqDecision DType}.

(** The values found in the namespace that [TemplateType1.__new__]
    receives and assembles. *)
Inductive NsValue : Type :=
| NsAttr (a : Attr)
| NsMapping (items : list (RawTag * PyClass))
| NsInstantiations (d : list (DType * PyClass))
| NsRepresentative (c : PyClass)
| NsInitStub (wrapped : option Attr).

(** A class created by [TemplateType1]: its [__name__] and namespace; it
    has no bases. *)
Record Facade : Type := mkFacade {
  fa_name : string;
  fa_dict : gmap string NsValue
}.

(** [numpy.dtype(t)]: the canonical dtype of a descriptor, or the
    exception numpy raises for a descriptor it does not understand. *)
Variable np_dtype : RawTag -> PyResult DType.

(** The builtins [isinstance] and [issubclass] on the concrete types. *)
Variable isinstance : PyObj -> PyClass -> bool.
Variable issubclass : PyClass -> PyClass -> bool.

(** The verdict of Python's class creation [type.__new__] on a name and
    a namespace (it rejects, for instance, [__slots__] that clash with
    class variables). *)
Variable type_new_check : string -> gmap string NsValue -> PyResult unit.

(** The entries that [type.__new__] puts into a namespace where it has
    none of that name: [__module__] and [__doc__], and the descriptors
    [__dict__] and [__weakref__] unless the namespace declares
    [__slots__] (the members that named slots would add are not
    modelled). *)
Definition class_defaults (attrs : gmap string NsValue) : gmap string NsValue :=
  let descriptor := NsAttr (AData (PyInstance "getset_descriptor")) in
  let always :=
    <["__module__" := NsAttr (AData (PyStr this_module))]>
      {[ "__doc__" := NsAttr (AData PyNone) ]} in
  match attrs !! "__slots__" with
  | None => <["__dict__" := descriptor]> (<["__weakref__" := descriptor]> always)
  | Some _ => always
  end.

(** [type.__new__(cls, name, (), attrs)]: the namespace of the new class
    is a copy of [attrs] without [__qualname__] and [__classcell__], which
    class creation consumes, completed by the defaults. *)
Definition type_new (name : string) (attrs : gmap string NsValue) : PyResult Facade :=
  do _ <- type_new_check name attrs;
  Ok (mkFacade name
        (delete "__classcell__" (delete "__qualname__" attrs) ∪ class_defaults attrs)).

(** [{np.dtype(t): v for t, v in items}], filled from left to right *)
Fixpoint dict_comprehension (items : list (RawTag * PyClass))
    (acc : list (DType * PyClass)) : PyResult (list (DType * PyClass)) :=
  match items with
  | [] => Ok acc
  | (t, v) :: rest => do k <- np_dtype t; dict_comprehension rest (dict_set k v acc)
  end.

(** [attrs["instantiations"].items()]; only a mapping has [items]. *)
Definition instantiations_items (attrs : gmap string NsValue)
  : PyResult (list (RawTag * PyClass)) :=
  match attrs !! "instantiations" with
  | Some (NsMapping items) => Ok items
  | Some _ => Raise AttributeError
  | None => Raise KeyError
  end.

(** [TemplateType1.__new__(cls, name, _bases, attrs)] *)
Definition TemplateType1_new (name : string) (attrs : gmap string NsValue)
  : PyResult Facade :=
  do items <- instantiations_items attrs;
  do instantiations <- dict_comprehension items [];
  let attrs := delete "instantiations" attrs in
  do representative_type <- first_value instantiations;
  let attrs := (NsAttr <$> cls_dict representative_type) ∪ attrs in
  let attrs := <["__instantiations__" := NsInstantiations instantiations]> attrs in
  let attrs := <["__representative__" := NsRepresentative representative_type]> attrs in
  let attrs := <["__init__" := NsInitStub (class_getattr representative_type "__init__")]> attrs in
  type_new name attrs.

(** [make_template_type1(name, instantiations)] *)
Definition make_template_type1 (name : string)
    (instantiations : list (RawTag * PyClass)) : PyResult Facade :=
  TemplateType1_new name {[ "instantiations" := NsMapping instantiations ]}.

(** The message of [_init_stub] for a type called [name]. *)
Definition stub_message (name : string) : string :=
  name +:+ " cannot be instantiated directly. Select a specific type with "
       +:+ name +:+ "[...].".

(** [_init_stub(self, *_args, **_kwargs)] *)
Definition _init_stub (self : PyObj) (_args : list PyObj) : PyResult unit :=
  let name := type_name_of self in
  Raise (TypeError (stub_message name)).

(** [cls.__instantiations__] and its [values()] *)
Definition get_instantiations (cls : Facade) : PyResult (list (DType * PyClass)) :=
  match fa_dict cls !! "__instantiations__" with
  | Some (NsInstantiations d) => Ok d
  | _ => Raise AttributeError
  end.

(** [cls.__representative__] *)
Definition get_representative (cls : Facade) : PyResult PyClass :=
  match fa_dict cls !! "__representative__" with
  | Some (NsRepresentative c) => Ok c
  | _ => Raise AttributeError
  end.

(** [TemplateType1.__getitem__(cls, item)] *)
Definition TemplateType1_getitem (cls : Facade) (item : RawTag) : PyResult PyClass :=
  do d <- get_instantiations cls;
  do k <- np_dtype item;
  match dict_get k d with
  | Some ty => Ok ty
  | None => Raise KeyError
  end.

(** [TemplateType1.__instancecheck__(cls, instance)] *)
Definition TemplateType1_instancecheck (cls : Facade) (instance : PyObj) : PyResult bool :=
  do d <- get_instantiations cls;
  Ok (existsb (fun ty => isinstance instance ty) (dict_values d)).

(** [TemplateType1.__subclasscheck__(cls, subclass)] *)
Definition TemplateType1_subclasscheck (cls : Facade) (subclass : PyClass) : PyResult bool :=
  do d <- get_instantiations cls;
  Ok (existsb (fun ty => issubclass subclass ty) (dict_values d)).

(** Calling the [__init__] found in the namespace of [cls] on a new
    instance; without one, [object.__init__] does nothing. *)
Definition call_init (cls : Facade) (self : PyObj) (args : list PyObj) : PyResult unit :=
  match fa_dict cls !! "__init__" with
  | Some (NsInitStub _) => _init_stub self args
  | Some (NsAttr (AFunction body)) => do _ <- body (self :: args); Ok tt
  | Some _ => Raise (TypeError "object is not callable")
  | None => Ok tt
  end.

(** Calling the class itself, [cls(...)], as Python's [type.__call__]
    does it: [__new__] first (that of the namespace, else [object]'s),
    then [__init__] if and only if [__new__] gave an instance of [cls].
    A builtin [__new__] wrapper found in the namespace is not used: the
    class keeps the [__new__] of [object]. *)
Definition type_call (cls : Facade) (args : list PyObj) : PyResult PyObj :=
  let self := PyInstance (fa_name cls) in
  match fa_dict cls !! "__new__" with
  | None | Some (NsAttr ABuiltinNew) => do _ <- call_init cls self args; Ok self
  | Some (NsAttr (AStaticNew body)) =>
      match body args with
      | NewInstance => do _ <- call_init cls self args; Ok self
      | NewOther o => Ok o
      | NewRaise e => Raise e
      end
  | Some _ => Raise (TypeError "object is not callable")
  end.

End TemplateType.

(** ** A small universe for the worked examples *)

Module Demo.

(** The scenario of the specification: three nodes, two edges, both
    leaving node 1. *)
Definition g3 : PropertyGraph := mkGraph [0; 2; 2] [0; 2].

(** The canonical dtypes of the examples. *)
Inductive DT : Type := dt_int32 | dt_int64 | dt_float32.

#[global] Instance DT_eq_dec : EqDecision DT.
Proof. solve_decision. Defined.

(** The descriptors of the examples: the strings ['int32'], ['i4'],
    ['int64'], ['float32'] and ['bogus'], and the dtype object
    [np.dtype('int32')]. *)
Inductive Descr : Type :=
| str_int32 | str_i4 | str_int64 | str_float32 | str_bogus | obj_int32.

(** [numpy.dtype] on these descriptors: ['i4'] is another spelling of
    ['int32'], a dtype object is its own dtype, and ['bogus'] is not
    understood. *)
Definition np_dtype (t : Descr) : PyResult DT :=
  match t with
  | str_int32 | str_i4 | obj_int32 => Ok dt_int32
  | str_int64 => Ok dt_int64
  | str_float32 => Ok dt_float32
  | str_bogus => Raise (TypeError "data type 'bogus' not understood")
  end.

(** Two unrelated concrete types with a class-level attribute each; the
    first also has an [__init__] of its own. *)
Definition TypeA : PyClass :=
  mkClass "TypeA"
    (<["__init__" := AFunction (fun _ => Ok PyNone)]>
       {[ "itemsize" := AData (PyInt 4) ]}) [].

Definition TypeB : PyClass :=
  mkClass "TypeB" {[ "itemsize" := AData (PyInt 8) ]} [].

(** A concrete type whose [__new__] hands back an integer. *)
Definition TypeN : PyClass :=
  mkClass "TypeN" {[ "__new__" := AStaticNew (fun _ => NewOther (PyInt 42)) ]} [].

(** A concrete type that inherits the class-level attribute [base_attr]. *)
Definition TypeC : PyClass :=
  mkClass "TypeC" {[ "itemsize" := AData (PyInt 2) ]}
    [ {[ "base_attr" := AData (PyInt 1) ]} ].

(** A concrete type implemented in C: its namespace holds the builtin
    wrapper of its [__new__]. *)
Definition TypeW : PyClass :=
  mkClass "TypeW" {[ "__new__" := ABuiltinNew ]} [].

(** A concrete type declared with [__slots__ = 'x']: its namespace holds
    the member [x]. *)
Definition TypeS : PyClass :=
  mkClass "TypeS"
    (<["__slots__" := AData (PyStr "x")]>
       {[ "x" := AData (PyInstance "member_descriptor") ]}) [].

(** Among these types nothing inherits: an object is an instance of the
    type it names, a type is a subtype of itself only. *)
Definition isinstance (o : PyObj) (c : PyClass) : bool :=
  String.eqb (type_name_of o) (cls_name c).

Definition issubclass (c1 c2 : PyClass) : bool :=
  String.eqb (cls_name c1) (cls_name c2).

(** Class creation on the namespaces of the examples: a slot named like
    an entry of the namespace is rejected, everything else is accepted. *)
Definition type_new_check (_ : string) (ns : gmap string (@NsValue Descr DT))
  : PyResult unit :=
  match ns !! "__slots__" with
  | Some (NsAttr (AData (PyStr slot))) =>
      match ns !! slot with
      | Some _ =>
          Raise (ValueError ("'" +:+ slot +:+ "' in __slots__ conflicts with class variable"))
      | None => Ok tt
      end
  | _ => Ok tt
  end.

Definition make (name : string) (items : list (Descr * PyClass))
  : PyResult (@Facade Descr DT) :=
  make_template_type1 np_dtype type_new_check name items.

(** The class that [make_template_type1("Graph", {"int32": TypeA,
    "int64": TypeB})] creates. *)
Definition Graph : @Facade Descr DT :=
  mkFacade "Graph"
    (<["__init__" := NsInitStub (Some (AFunction (fun _ => Ok PyNone)))]>
    (<["__representative__" := NsRepresentative TypeA]>
    (<["__instantiations__" := NsInstantiations [(dt_int32, TypeA); (dt_int64, TypeB)]]>
    (<["__module__" := NsAttr (AData (PyStr "galois.util.template_type"))]>
    (<["__doc__" := NsAttr (AData PyNone)]>
    (<["__dict__" := NsAttr (AData (PyInstance "getset_descriptor"))]>
    (<["__weakref__" := NsAttr (AData (PyInstance "getset_descriptor"))]>
       {[ "itemsize" := NsAttr (AData (PyInt 4)) ]}))))))).

End Demo.

(** * Properties *)

Lemma Graph_is_built :
  Demo.make "Graph" [(Demo.str_int32, Demo.TypeA); (Demo.str_int64, Demo.TypeB)]
  = Ok Demo.Graph.
Proof. vm_compute. reflexivity. Qed.

(** ** The result monad *)

Lemma bind_Ok_inv {A B : Type} (m : PyResult A) (k : A -> PyResult B) (b : B) :
  bind m k = Ok b -> exists a, m = Ok a /\ k a = Ok b.
Proof. destruct m as [a|e]; simpl; [eauto | discriminate]. Qed.

Lemma for_each_app {A B : Type} (f : A -> PyResult B) (l1 l2 : list A) :
  for_each f (l1 ++ l2) =
  do bs1 <- for_each f l1; do bs2 <- for_each f l2; Ok (bs1 ++ bs2).
Proof.
  induction l1 as [|a l1 IH]; simpl.
  - destruct (for_each f l2); reflexivity.
  - destruct (f a) as [b|e]; simpl; [|reflexivity].
    rewrite IH. destruct (for_each f l1); simpl; [|reflexivity].
    destruct (for_each f l2); reflexivity.
Qed.

(** ** [range] and its iterator *)

Lemma drain_counts (k : nat) : forall a s : N,
  N.to_nat (s - a) = k ->
  drain k (mkIter a s) = (map N.of_nat (seq (N.to_nat a) k), mkIter (N.max a s) s).
Proof.
  induction k as [|k IH]; intros a s Hk.
  - simpl. f_equal. f_equal. lia.
  - cbn [drain]. unfold next. cbn [it_next it_stop].
    destruct (N.ltb_spec a s) as [Hlt|Hge]; [|lia].
    rewrite (IH (N.succ a) s) by lia.
    cbn [seq map]. rewrite N2Nat.id, N2Nat.inj_succ.
    f_equal. f_equal. lia.
Qed.

Lemma to_list_range1 (n : N) :
  to_list (range1 n) = map N.of_nat (seq 0 (N.to_nat n)).
Proof.
  unfold to_list, exhaust, remaining, iter, range1. cbn [start stop it_next it_stop].
  rewrite (drain_counts (N.to_nat (n - 0)) 0 n eq_refl).
  cbn [fst]. rewrite N.sub_0_r. reflexivity.
Qed.

Lemma exhaust_ends (r : PyRange) :
  snd (exhaust (iter r)) = mkIter (N.max (start r) (stop r)) (stop r).
Proof.
  unfold exhaust, remaining, iter. cbn [it_next it_stop].
  rewrite (drain_counts _ (start r) (stop r) eq_refl). reflexivity.
Qed.

Lemma to_list_empty (b : N) : to_list (range2 b b) = [].
Proof.
  unfold to_list, exhaust, remaining, iter, range2. cbn [start stop it_next it_stop].
  rewrite N.sub_diag. reflexivity.
Qed.

Lemma range_empty (b : N) :
  to_list (range2 b b) = [] /\ len (range2 b b) = 0 /\
  start (range2 b b) <= stop (range2 b b).
Proof.
  split; [apply to_list_empty|]. unfold len, range2. cbn [start stop]. lia.
Qed.

Lemma counting_sorted (k : nat) : forall a : nat,
  StronglySorted N.lt (map N.of_nat (seq a k)).
Proof.
  induction k as [|k IH]; intros a; cbn [seq map]; constructor.
  - apply IH.
  - apply List.Forall_forall. intros x Hx.
    apply List.in_map_iff in Hx as [y [<- Hy]].
    apply List.in_seq in Hy. lia.
Qed.

(** ** [edge_index] *)

Lemma edge_index_in_range (g : PropertyGraph) (n : N) :
  n < num_nodes g ->
  edge_index g n = Ok (nth (N.to_nat n) (out_indices g) 0).
Proof.
  intros Hn. unfold edge_index.
  destruct (N.ltb_spec n (num_nodes g)) as [_|Hge]; [|lia].
  unfold num_nodes in Hn.
  destruct (out_indices g !! N.to_nat n) as [e|] eqn:He.
  - f_equal. symmetry. apply nth_lookup_Some with (d := 0) in He. exact He.
  - apply lookup_ge_None in He. lia.
Qed.

Lemma edge_index_out_of_range (g : PropertyGraph) (n : N) :
  num_nodes g <= n -> edge_index g n = Raise IndexOutOfRange.
Proof.
  intros Hn. unfold edge_index.
  destruct (N.ltb_spec n (num_nodes g)); [lia | reflexivity].
Qed.

Lemma edge_index_error (g : PropertyGraph) (n : N) (e : PyExc) :
  edge_index g n = Raise e -> e = IndexOutOfRange.
Proof.
  unfold edge_index.
  destruct (n <? num_nodes g); [destruct (out_indices g !! N.to_nat n)|];
    congruence.
Qed.

(** The range of node [n] reads two neighbouring entries of the array of
    range ends extended by a leading zero. *)
Lemma edges_impl_nth (g : PropertyGraph) (k : nat) :
  (k < length (out_indices g))%nat ->
  edges_impl g (N.of_nat k) =
  Ok (range2 (nth k (0 :: out_indices g) 0) (nth k (out_indices g) 0)).
Proof.
  intros Hk. unfold edges_impl.
  rewrite (edge_index_in_range g (N.of_nat k)) by (unfold num_nodes; lia).
  rewrite Nat2N.id.
  destruct k as [|k].
  - reflexivity.
  - destruct (N.eqb_spec (N.of_nat (S k)) 0) as [H0|_]; [lia|].
    rewrite (edge_index_in_range g (N.of_nat (S k) - 1)) by (unfold num_nodes; lia).
    replace (N.to_nat (N.of_nat (S k) - 1)) with k by lia.
    reflexivity.
Qed.

Lemma monotone_nth (l : list N) : forall (p : N) (k : nat),
  monotone p l = true -> (k < length l)%nat -> nth k (p :: l) 0 <= nth k l 0.
Proof.
  induction l as [|x l IH]; intros p k Hm Hk; cbn [length] in Hk; [lia|].
  cbn [monotone] in Hm. apply andb_prop in Hm as [Hpx Hm].
  destruct k as [|k].
  - simpl. apply N.leb_le. exact Hpx.
  - change (nth k (x :: l) 0 <= nth k l 0). apply IH; [exact Hm | lia].
Qed.

Lemma last_default (l : list N) (a b : N) : l <> [] -> List.last l a = List.last l b.
Proof.
  induction l as [|x l IH]; intros Hne; [congruence|].
  destruct l as [|y l]; [reflexivity|].
  change (List.last (y :: l) a = List.last (y :: l) b). apply IH. discriminate.
Qed.

Lemma nth_length_last (l : list N) : forall a d : N,
  nth (length l) (a :: l) d = List.last l a.
Proof.
  induction l as [|x l IH]; intros a d; [reflexivity|].
  change (nth (length l) (x :: l) d = List.last (x :: l) a).
  rewrite IH. destruct l as [|y l]; [reflexivity|].
  change (List.last (y :: l) x = List.last (y :: l) a).
  apply last_default. discriminate.
Qed.

Lemma sum_extents_app (rs1 rs2 : list PyRange) :
  sum_extents (rs1 ++ rs2) = (sum_extents rs1 + sum_extents rs2)%Z.
Proof.
  unfold sum_extents. induction rs1 as [|r rs1 IH]; simpl; [reflexivity|].
  rewrite IH. lia.
Qed.

(** Visiting the first [k] nodes in order: every range is there and their
    extents add up to the end of the last range visited. *)
Lemma edges_prefix_sum (g : PropertyGraph) (k : nat) :
  (k <= length (out_indices g))%nat ->
  exists rs,
    for_each (edges_impl g) (map N.of_nat (seq 0 k)) = Ok rs /\
    sum_extents rs = Z.of_N (nth k (0 :: out_indices g) 0).
Proof.
  induction k as [|k IH]; intros Hk.
  - exists []. split; reflexivity.
  - destruct IH as [rs [Hrs Hsum]]; [lia|].
    exists (rs ++ [range2 (nth k (0 :: out_indices g) 0) (nth k (out_indices g) 0)]).
    split.
    + rewrite seq_S, map_app, for_each_app, Hrs. cbn [bind map for_each Nat.add].
      rewrite edges_impl_nth by lia. reflexivity.
    + rewrite sum_extents_app, Hsum. unfold sum_extents, extent, range2. simpl. lia.
Qed.

Lemma to_list_range2 (a b : N) :
  to_list (range2 a b) = map N.of_nat (seq (N.to_nat a) (N.to_nat (b - a))).
Proof.
  unfold to_list, exhaust, remaining, iter, range2. cbn [start stop it_next it_stop].
  rewrite (drain_counts (N.to_nat (b - a)) a b eq_refl). reflexivity.
Qed.

(** Visiting the first [k] nodes of a graph with non-decreasing range ends
    enumerates the edge identifiers below the end of the last range. *)
Lemma edges_prefix_enumerates (g : PropertyGraph) (k : nat) :
  monotone 0 (out_indices g) = true ->
  (k <= length (out_indices g))%nat ->
  exists rs,
    for_each (edges_impl g) (map N.of_nat (seq 0 k)) = Ok rs /\
    concat (map to_list rs) =
    map N.of_nat (seq 0 (N.to_nat (nth k (0 :: out_indices g) 0))).
Proof.
  intros Hm. induction k as [|k IH]; intros Hk.
  - exists []. split; reflexivity.
  - destruct IH as [rs [Hrs Hcat]]; [lia|].
    exists (rs ++ [range2 (nth k (0 :: out_indices g) 0) (nth k (out_indices g) 0)]).
    split.
    + rewrite seq_S, map_app, for_each_app, Hrs. cbn [bind map for_each Nat.add].
      rewrite edges_impl_nth by lia. reflexivity.
    + pose proof (monotone_nth (out_indices g) 0 k Hm ltac:(lia)) as Hle.
      rewrite map_app, concat_app, Hcat. cbn [map concat].
      rewrite to_list_range2, List.app_nil_r, <- map_app.
      change (nth (S k) (0 :: out_indices g) 0) with (nth k (out_indices g) 0).
      set (a := nth k (0 :: out_indices g) 0) in *.
      set (b := nth k (out_indices g) 0) in *.
      replace (N.to_nat b) with (N.to_nat a + N.to_nat (b - a))%nat by lia.
      rewrite List.seq_app. reflexivity.
Qed.

(** ** The claims about the topology *)

(** C1: for every node [n] below the node count, [edges(n)] (the
    specification's [out_edges]) is the range from [begin] to [end], where
    [begin] is zero for node zero and [edge_index(n - 1)] otherwise, and
    [end] is [edge_index(n)]; this covers the first and the last node, and
    a node without out-edges gets an empty range whose bounds are in
    order. *)
Theorem edges_begin_end (g : PropertyGraph) (n : N) :
  n < num_nodes g ->
  (forall w, overload_PropertyGraph_edges PropertyGraphType (Integer false w)
             = Some edges_impl) /\
  exists b e,
    edges_impl g n = Ok (range2 b e) /\
    (n = 0 -> b = 0) /\
    (n <> 0 -> edge_index g (n - 1) = Ok b) /\
    edge_index g n = Ok e /\
    (b = e -> to_list (range2 b e) = [] /\ len (range2 b e) = 0 /\
              start (range2 b e) <= stop (range2 b e)).
Proof.
  intros Hn. split; [reflexivity|].
  pose proof (edge_index_in_range g n Hn) as He.
  destruct (N.eqb_spec n 0) as [H0|H0].
  - exists 0, (nth (N.to_nat n) (out_indices g) 0).
    refine (conj _ (conj _ (conj _ (conj He _)))).
    + unfold edges_impl. rewrite He.
      destruct (N.eqb_spec n 0); [reflexivity | contradiction].
    + reflexivity.
    + contradiction.
    + intros <-. apply range_empty.
  - pose proof (edge_index_in_range g (n - 1) ltac:(lia)) as Hp.
    exists (nth (N.to_nat (n - 1)) (out_indices g) 0), (nth (N.to_nat n) (out_indices g) 0).
    refine (conj _ (conj _ (conj _ (conj He _)))).
    + unfold edges_impl. rewrite He, Hp.
      destruct (N.eqb_spec n 0); [contradiction | reflexivity].
    + contradiction.
    + intros _. exact Hp.
    + intros <-. apply range_empty.
Qed.

Lemma edges_begin_end_witness :
  exists b e,
    edges_impl Demo.g3 1 = Ok (range2 b e) /\
    (1 = 0 -> b = 0) /\
    (1 <> 0 -> edge_index Demo.g3 (1 - 1) = Ok b) /\
    edge_index Demo.g3 1 = Ok e /\
    (b = e -> to_list (range2 b e) = [] /\ len (range2 b e) = 0 /\
              start (range2 b e) <= stop (range2 b e)).
Proof. apply (edges_begin_end Demo.g3 1). reflexivity. Defined.

(** C7: [edge_index] (the specification's [edge_range_end]) called with the
    node count or anything above it raises [IndexOutOfRange]: it gives no
    value at all, in particular not that of the last node, and [edges]
    passes the error on. *)
Theorem edge_index_rejects (g : PropertyGraph) (n : N) :
  num_nodes g <= n ->
  edge_index g n = Raise IndexOutOfRange /\
  (forall e, edge_index g n <> Ok e) /\
  edges_impl g n = Raise IndexOutOfRange.
Proof.
  intros Hn. pose proof (edge_index_out_of_range g n Hn) as He.
  split; [exact He|]. split; [intros e; rewrite He; discriminate|].
  unfold edges_impl. rewrite He.
  destruct (n =? 0); [reflexivity|].
  destruct (edge_index g (n - 1)) as [p|x] eqn:Hp; [reflexivity|].
  apply edge_index_error in Hp. subst x. reflexivity.
Qed.

Lemma edge_index_rejects_witness :
  edge_index Demo.g3 3 = Raise IndexOutOfRange /\
  (forall e, edge_index Demo.g3 3 <> Ok e) /\
  edges_impl Demo.g3 3 = Raise IndexOutOfRange.
Proof. apply (edge_index_rejects Demo.g3 3). vm_compute. discriminate. Defined.

(** C9: [nodes()] is a range whose iteration gives exactly [num_nodes()]
    values, [0, 1, ..., num_nodes() - 1], strictly increasing; each value
    comes from one [next] on a two-number iterator (lazily), the iterator
    then stops, and iterating the range again gives the same values. *)
Theorem nodes_sequence (g : PropertyGraph) :
  let r := nodes_impl g in
  let first_pass := exhaust (iter r) in
  let second_pass := exhaust (iter r) in
  fst first_pass = map N.of_nat (seq 0 (N.to_nat (num_nodes g))) /\
  N.of_nat (length (fst first_pass)) = num_nodes g /\
  StronglySorted N.lt (fst first_pass) /\
  (forall k, k < num_nodes g ->
     next (mkIter k (stop r)) = (Ok k, mkIter (N.succ k) (stop r))) /\
  fst (next (snd first_pass)) = Raise StopIteration /\
  fst second_pass = fst first_pass /\
  to_list r = fst first_pass.
Proof.
  cbv zeta.
  pose proof (to_list_range1 (num_nodes g)) as Hl. unfold to_list in Hl.
  change (range1 (num_nodes g)) with (nodes_impl g) in Hl.
  repeat split.
  - exact Hl.
  - rewrite Hl, length_map, length_seq. lia.
  - rewrite Hl. apply counting_sorted.
  - intros k Hk. unfold next, nodes_impl, range1. cbn [it_next it_stop stop].
    destruct (N.ltb_spec k (num_nodes g)); [reflexivity | lia].
  - rewrite exhaust_ends. unfold next, nodes_impl, range1. cbn [it_next it_stop start stop].
    destruct (N.ltb_spec (N.max 0 (num_nodes g)) (num_nodes g)); [lia | reflexivity].
Qed.

(** C2: on a valid input (range ends that never decrease, the last one
    being the edge count) every [edges(n)] has its bounds in order, the
    range of node zero begins at zero, the extents of the ranges of all
    the nodes add up to the edge count, and the ranges partition the edge
    array: taken in the order of the nodes they list every edge
    identifier [0, ..., num_edges - 1] exactly once. *)
Theorem edges_partition (g : PropertyGraph) :
  valid_csr g = true ->
  (forall n, n < num_nodes g ->
     exists r, edges_impl g n = Ok r /\ start r <= stop r) /\
  (forall r, edges_impl g 0 = Ok r -> start r = 0) /\
  exists rs,
    for_each (edges_impl g) (to_list (nodes_impl g)) = Ok rs /\
    sum_extents rs = Z.of_N (num_edges g) /\
    concat (map to_list rs) = map N.of_nat (seq 0 (N.to_nat (num_edges g))).
Proof.
  intros Hv. unfold valid_csr in Hv. apply andb_prop in Hv as [Hmono Hlast].
  apply N.eqb_eq in Hlast.
  split; [|split].
  - intros n Hn. unfold num_nodes in Hn.
    exists (range2 (nth (N.to_nat n) (0 :: out_indices g) 0)
                   (nth (N.to_nat n) (out_indices g) 0)).
    split.
    + rewrite <- (N2Nat.id n) at 1. apply edges_impl_nth. lia.
    + apply monotone_nth; [exact Hmono | lia].
  - intros r Hr. unfold edges_impl in Hr. cbn [N.eqb bind] in Hr.
    destruct (edge_index g 0); cbn [bind] in Hr; [|discriminate].
    injection Hr as <-. reflexivity.
  - destruct (edges_prefix_sum g (length (out_indices g)) (le_n _)) as [rs [Hrs Hsum]].
    destruct (edges_prefix_enumerates g (length (out_indices g)) Hmono (le_n _))
      as [rs' [Hrs' Hcat]].
    assert (rs' = rs) as -> by congruence.
    exists rs. split; [|split].
    + unfold nodes_impl. rewrite to_list_range1. unfold num_nodes.
      rewrite Nat2N.id. exact Hrs.
    + rewrite Hsum, nth_length_last, Hlast. reflexivity.
    + rewrite Hcat, nth_length_last, Hlast. reflexivity.
Qed.

Lemma edges_partition_witness :
  (forall n, n < num_nodes Demo.g3 ->
     exists r, edges_impl Demo.g3 n = Ok r /\ start r <= stop r) /\
  (forall r, edges_impl Demo.g3 0 = Ok r -> start r = 0) /\
  exists rs,
    for_each (edges_impl Demo.g3) (to_list (nodes_impl Demo.g3)) = Ok rs /\
    sum_extents rs = Z.of_N (num_edges Demo.g3) /\
    concat (map to_list rs) = map N.of_nat (seq 0 (N.to_nat (num_edges Demo.g3))).
Proof. apply (edges_partition Demo.g3). reflexivity. Defined.

(** The scenario of the specification, evaluated. *)
Example g3_ranges :
  for_each (edges_impl Demo.g3) (to_list (nodes_impl Demo.g3))
  = Ok [range2 0 0; range2 0 2; range2 2 2] /\ num_edges Demo.g3 = 2.
Proof. split; reflexivity. Qed.

(** ** The insertion-ordered dictionary *)

Section DictFacts.
Context {K V : Type} `{EqDecision K}.
Implicit Types (k : K) (v : V) (d : list (K * V)).

Lemma dict_get_set_eq k v d : dict_get k (dict_set k v d) = Some v.
Proof.
  induction d as [|[k' v'] d IH]; simpl.
  - destruct (decide (k = k)); congruence.
  - destruct (decide (k = k')) as [->|Hne]; simpl.
    + destruct (decide (k' = k')); congruence.
    + destruct (decide (k = k')); [contradiction | exact IH].
Qed.

Lemma dict_get_set_ne k k' v d :
  k <> k' -> dict_get k' (dict_set k v d) = dict_get k' d.
Proof.
  intros Hne. induction d as [|[k'' v''] d IH]; simpl.
  - destruct (decide (k' = k)); congruence.
  - destruct (decide (k = k'')) as [->|Hne']; simpl.
    + destruct (decide (k' = k'')); congruence.
    + destruct (decide (k' = k'')); [reflexivity | exact IH].
Qed.

Lemma dict_keys_set k v d :
  forall k', In k' (dict_keys (dict_set k v d)) <-> k' = k \/ In k' (dict_keys d).
Proof.
  intros k'. induction d as [|[k'' v''] d IH]; simpl.
  - intuition congruence.
  - destruct (decide (k = k'')) as [->|Hne]; simpl.
    + intuition congruence.
    + rewrite IH. intuition congruence.
Qed.

Lemma dict_set_NoDup k v d :
  List.NoDup (dict_keys d) -> List.NoDup (dict_keys (dict_set k v d)).
Proof.
  induction d as [|[k' v'] d IH]; simpl; intros Hnd.
  - constructor; [intros [] | constructor].
  - inversion Hnd as [|? ? Hnotin Hnd']; subst.
    destruct (decide (k = k')) as [->|Hne]; simpl.
    + constructor; assumption.
    + constructor; [|apply IH; exact Hnd'].
      intros Hin. apply dict_keys_set in Hin as [Heq|Hin]; [congruence | contradiction].
Qed.

Lemma dict_set_head k v k0 v0 d :
  exists v1 d', dict_set k v ((k0, v0) :: d) = (k0, v1) :: d'.
Proof.
  simpl. destruct (decide (k = k0)); eauto.
Qed.

Lemma dict_get_values k v d : dict_get k d = Some v -> In v (dict_values d).
Proof.
  induction d as [|[k' v'] d IH]; simpl; [discriminate|].
  destruct (decide (k = k')); intros Hg.
  - left. congruence.
  - right. apply IH. exact Hg.
Qed.

Lemma dict_get_None k d : ~ In k (dict_keys d) -> dict_get k d = None.
Proof.
  induction d as [|[k' v'] d IH]; simpl; [reflexivity|]. intros Hn.
  destruct (decide (k = k')) as [->|_]; [tauto|]. apply IH. tauto.
Qed.

Lemma dict_values_get v d :
  List.NoDup (dict_keys d) -> In v (dict_values d) -> exists k, dict_get k d = Some v.
Proof.
  induction d as [|[k' v'] d IH]; simpl; intros Hnd Hin; [contradiction|].
  inversion Hnd as [|? ? Hnotin Hnd']; subst.
  destruct Hin as [->|Hin].
  - exists k'. destruct (decide (k' = k')); congruence.
  - destruct (IH Hnd' Hin) as [k Hk]. exists k.
    destruct (decide (k = k')) as [->|_]; [|exact Hk].
    rewrite dict_get_None in Hk by exact Hnotin. discriminate.
Qed.

(** A key that is present sits in exactly one entry. *)
Lemma dict_get_single k v d :
  List.NoDup (dict_keys d) -> dict_get k d = Some v ->
  exists d1 d2, d = d1 ++ (k, v) :: d2 /\
                ~ In k (dict_keys d1) /\ ~ In k (dict_keys d2).
Proof.
  induction d as [|[k' v'] d IH]; simpl; intros Hnd Hg; [discriminate|].
  inversion Hnd as [|? ? Hnotin Hnd']; subst.
  destruct (decide (k = k')) as [->|Hne].
  - injection Hg as ->. exists [], d. simpl. tauto.
  - destruct (IH Hnd' Hg) as [d1 [d2 [-> [H1 H2]]]].
    exists ((k', v') :: d1), d2. simpl. intuition congruence.
Qed.

Lemma first_value_get (rep : V) d :
  first_value d = Ok rep -> exists k d', d = (k, rep) :: d' /\ dict_get k d = Some rep.
Proof.
  destruct d as [|[k v] d']; unfold first_value; simpl; [discriminate|].
  intros [= ->]. exists k, d'. split; [reflexivity|].
  destruct (decide (k = k)); congruence.
Qed.
End DictFacts.

(** ** [template_type.py]: the dictionary of instantiations *)

Section TemplateTypeFacts.
Context {RawTag DType : Type} `{EqDecision DType}.
Variable np_dtype : RawTag -> PyResult DType.
Variable isinstance : PyObj -> PyClass -> bool.
Variable issubclass : PyClass -> PyClass -> bool.
Variable type_new_check : string -> gmap string (@NsValue RawTag DType) -> PyResult unit.

Implicit Types (items : list (RawTag * PyClass)) (d acc : list (DType * PyClass)).
Implicit Types (k : DType) (t : RawTag) (v ty rep : PyClass).

(** No entry of [items] has a tag with canonical form [k]. *)
Local Abbreviation misses k items :=
  (List.Forall (fun e : RawTag * PyClass => np_dtype (fst e) <> Ok k) items).

(** Every tag of [items] is understood by [np.dtype]. *)
Local Abbreviation understood items :=
  (List.Forall (fun e : RawTag * PyClass => exists k, np_dtype (fst e) = Ok k) items).

Lemma comprehension_understood items : forall acc d,
  dict_comprehension np_dtype items acc = Ok d -> understood items.
Proof.
  induction items as [|[t v] items IH]; intros acc d Hd; [constructor|].
  cbn [dict_comprehension] in Hd. apply bind_Ok_inv in Hd as [k [Hk Hd]].
  constructor; [exists k; exact Hk | eapply IH; exact Hd].
Qed.

Lemma comprehension_total items : forall acc,
  understood items -> exists d, dict_comprehension np_dtype items acc = Ok d.
Proof.
  induction items as [|[t v] items IH]; intros acc Hu; [eexists; reflexivity|].
  inversion Hu as [|? ? [k Hk] Hu']; subst. cbn [dict_comprehension fst] in *.
  rewrite Hk. cbn [bind]. apply IH. exact Hu'.
Qed.

Lemma comprehension_NoDup items : forall acc d,
  List.NoDup (dict_keys acc) ->
  dict_comprehension np_dtype items acc = Ok d -> List.NoDup (dict_keys d).
Proof.
  induction items as [|[t v] items IH]; intros acc d Hnd Hd.
  - cbn in Hd. congruence.
  - cbn [dict_comprehension] in Hd. apply bind_Ok_inv in Hd as [k [Hk Hd]].
    eapply IH; [|exact Hd]. apply dict_set_NoDup. exact Hnd.
Qed.

(** The first entry of a dictionary stays first whatever is stored
    later. *)
Lemma comprehension_head items : forall k0 v0 acc d,
  dict_comprehension np_dtype items ((k0, v0) :: acc) = Ok d ->
  exists v1 d', d = (k0, v1) :: d'.
Proof.
  induction items as [|[t v] items IH]; intros k0 v0 acc d Hd.
  - cbn in Hd. injection Hd as <-. eauto.
  - cbn [dict_comprehension] in Hd. apply bind_Ok_inv in Hd as [k [Hk Hd]].
    destruct (dict_set_head k v k0 v0 acc) as [v1 [d' Hset]].
    rewrite Hset in Hd. eapply IH. exact Hd.
Qed.

Lemma comprehension_untouched items : forall k acc d,
  misses k items ->
  dict_comprehension np_dtype items acc = Ok d -> dict_get k d = dict_get k acc.
Proof.
  induction items as [|[t v] items IH]; intros k acc d Hm Hd.
  - cbn in Hd. congruence.
  - cbn [dict_comprehension] in Hd. apply bind_Ok_inv in Hd as [k' [Hk' Hd]].
    inversion Hm as [|? ? Hne Hm']; subst. cbn [fst] in Hne.
    rewrite (IH k _ d Hm' Hd). apply dict_get_set_ne. congruence.
Qed.

(** The value stored under a dtype is that of the last entry whose tag
    has this dtype. *)
Lemma comprehension_last pre : forall t v post k acc d,
  dict_comprehension np_dtype (pre ++ (t, v) :: post) acc = Ok d ->
  np_dtype t = Ok k -> misses k post -> dict_get k d = Some v.
Proof.
  induction pre as [|[t' v'] pre IH]; intros t v post k acc d Hd Hk Hm.
  - cbn [app dict_comprehension] in Hd. rewrite Hk in Hd. cbn [bind] in Hd.
    rewrite (comprehension_untouched post k _ d Hm Hd). apply dict_get_set_eq.
  - cbn [app dict_comprehension] in Hd. apply bind_Ok_inv in Hd as [k' [Hk' Hd]].
    eapply IH; eassumption.
Qed.

Lemma comprehension_inv items : forall k w acc d,
  dict_comprehension np_dtype items acc = Ok d ->
  dict_get k d = Some w ->
  (dict_get k acc = Some w /\ misses k items) \/
  (exists pre t post,
      items = pre ++ (t, w) :: post /\ np_dtype t = Ok k /\ misses k post).
Proof.
  induction items as [|[t v] items IH]; intros k w acc d Hd Hg.
  - cbn in Hd. injection Hd as <-. left. split; [exact Hg | constructor].
  - cbn [dict_comprehension] in Hd. apply bind_Ok_inv in Hd as [k' [Hk' Hd]].
    destruct (IH k w _ d Hd Hg) as [[Hacc Hm]|[pre [t' [post [-> [Ht' Hm]]]]]].
    + destruct (decide (k' = k)) as [->|Hne].
      * rewrite dict_get_set_eq in Hacc. injection Hacc as ->.
        right. exists [], t, items. auto.
      * rewrite dict_get_set_ne in Hacc by exact Hne.
        left. split; [exact Hacc|]. constructor; [|exact Hm].
        cbn [fst]. congruence.
    + right. exists ((t, v) :: pre), t', post. auto.
Qed.

(** [TemplateType1.__new__], taken apart: what it read, what it computed,
    the namespace it handed to [type.__new__] and the namespace of the
    class that came back. *)
Local Abbreviation assembled attrs d rep :=
  (<["__init__" := NsInitStub (class_getattr rep "__init__")]>
     (<["__representative__" := NsRepresentative rep]>
        (<["__instantiations__" := NsInstantiations d]>
           ((NsAttr <$> cls_dict rep) ∪ delete "instantiations" attrs)))).

Local Abbreviation created ns :=
  (delete "__classcell__" (delete "__qualname__" ns) ∪ class_defaults ns).

Lemma class_defaults_lookup (ns : gmap string (@NsValue RawTag DType)) (a : string) :
  a <> "__module__" -> a <> "__doc__" -> a <> "__dict__" -> a <> "__weakref__" ->
  class_defaults ns !! a = None.
Proof.
  intros H1 H2 H3 H4. unfold class_defaults.
  destruct (ns !! "__slots__");
    rewrite ?lookup_insert_ne by congruence;
    apply lookup_singleton_ne; congruence.
Qed.

Lemma created_lookup_Some (ns : gmap string (@NsValue RawTag DType)) a
    (w : @NsValue RawTag DType) :
  a <> "__qualname__" -> a <> "__classcell__" ->
  ns !! a = Some w -> created ns !! a = Some w.
Proof.
  intros H1 H2 Hv. apply lookup_union_Some_l.
  rewrite !lookup_delete_ne by congruence. exact Hv.
Qed.

Lemma created_lookup_None (ns : gmap string (@NsValue RawTag DType)) a :
  a <> "__module__" -> a <> "__doc__" -> a <> "__dict__" -> a <> "__weakref__" ->
  ns !! a = None -> created ns !! a = None.
Proof.
  intros H1 H2 H3 H4 Hv. apply lookup_union_None. split.
  - destruct (decide (a = "__classcell__")) as [->|Hc]; [apply lookup_delete_eq|].
    rewrite lookup_delete_ne by congruence.
    destruct (decide (a = "__qualname__")) as [->|Hq]; [apply lookup_delete_eq|].
    rewrite lookup_delete_ne by congruence. exact Hv.
  - apply class_defaults_lookup; assumption.
Qed.

Lemma assembled_lookup (attrs : gmap string (@NsValue RawTag DType)) d rep a :
  a <> "__instantiations__" -> a <> "__representative__" -> a <> "__init__" ->
  assembled attrs d rep !! a =
  match cls_dict rep !! a with
  | Some x => Some (NsAttr x)
  | None => if decide (a = "instantiations") then None else attrs !! a
  end.
Proof.
  intros H1 H2 H3.
  rewrite !lookup_insert_ne by congruence.
  rewrite lookup_union, lookup_fmap, lookup_delete.
  destruct (cls_dict rep !! a) as [x|]; cbn;
    destruct (decide ("instantiations" = a)) as [Heq|Hne];
    destruct (decide (a = "instantiations")) as [Heq'|Hne'];
    try congruence; try reflexivity;
    destruct (attrs !! a); reflexivity.
Qed.

Lemma TemplateType1_new_inv name attrs (F : Facade) :
  TemplateType1_new np_dtype type_new_check name attrs = Ok F ->
  exists items d rep,
    attrs !! "instantiations" = Some (NsMapping items) /\
    dict_comprehension np_dtype items [] = Ok d /\
    first_value d = Ok rep /\
    type_new_check name (assembled attrs d rep) = Ok tt /\
    F = mkFacade name (created (assembled attrs d rep)).
Proof.
  unfold TemplateType1_new, type_new, instantiations_items. intros HF.
  apply bind_Ok_inv in HF as [items [Hitems HF]].
  apply bind_Ok_inv in HF as [d [Hd HF]].
  apply bind_Ok_inv in HF as [rep [Hrep HF]].
  apply bind_Ok_inv in HF as [[] [Hchk HF]].
  injection HF as <-.
  exists items, d, rep.
  split; [destruct (attrs !! "instantiations") as [[]|]; congruence|].
  split; [exact Hd|]. split; [exact Hrep|]. split; [exact Hchk | reflexivity].
Qed.

(** The names that [TemplateType1.__new__] sets in the class it makes. *)
Lemma created_reserved (attrs : gmap string (@NsValue RawTag DType)) d rep :
  created (assembled attrs d rep) !! "__instantiations__" = Some (NsInstantiations d) /\
  created (assembled attrs d rep) !! "__representative__" = Some (NsRepresentative rep) /\
  created (assembled attrs d rep) !! "__init__"
    = Some (NsInitStub (class_getattr rep "__init__")).
Proof.
  split; [|split]; apply created_lookup_Some; try discriminate.
  - rewrite lookup_insert_ne by discriminate.
    rewrite lookup_insert_ne by discriminate.
    apply lookup_insert_eq.
  - rewrite lookup_insert_ne by discriminate. apply lookup_insert_eq.
  - apply lookup_insert_eq.
Qed.

Lemma make_template_type1_inv name items (F : Facade) :
  make_template_type1 np_dtype type_new_check name items = Ok F ->
  exists d rep,
    dict_comprehension np_dtype items [] = Ok d /\
    first_value d = Ok rep /\
    get_instantiations F = Ok d /\
    get_representative F = Ok rep /\
    fa_name F = name /\
    fa_dict F !! "__init__" = Some (NsInitStub (class_getattr rep "__init__")) /\
    (forall a x, a <> "__instantiations__" -> a <> "__representative__" ->
                 a <> "__init__" -> a <> "__qualname__" -> a <> "__classcell__" ->
                 cls_dict rep !! a = Some x -> fa_dict F !! a = Some (NsAttr x)) /\
    (forall a, a <> "__instantiations__" -> a <> "__representative__" ->
               a <> "__init__" -> a <> "__module__" -> a <> "__doc__" ->
               a <> "__dict__" -> a <> "__weakref__" ->
               cls_dict rep !! a = None -> fa_dict F !! a = None).
Proof.
  unfold make_template_type1. intros HF.
  apply TemplateType1_new_inv in HF
    as [items' [d [rep [Hitems [Hd [Hrep [_ ->]]]]]]].
  rewrite lookup_singleton_eq in Hitems. injection Hitems as <-.
  exists d, rep. split; [exact Hd|]. split; [exact Hrep|].
  unfold get_instantiations, get_representative. cbn [fa_dict fa_name].
  destruct (created_reserved {[ "instantiations" := NsMapping items ]} d rep)
    as [Hi [Hr Hs]].
  rewrite Hi, Hr. split; [reflexivity|]. split; [reflexivity|].
  split; [reflexivity|]. split; [exact Hs|]. split.
  - intros a x H1 H2 H3 H4 H5 Hx. apply created_lookup_Some; [exact H4 | exact H5|].
    rewrite assembled_lookup by assumption. rewrite Hx. reflexivity.
  - intros a H1 H2 H3 H4 H5 H6 H7 Hx. apply created_lookup_None; try assumption.
    rewrite assembled_lookup by assumption. rewrite Hx.
    destruct (decide (a = "instantiations")) as [_|Hne]; [reflexivity|].
    apply lookup_singleton_ne. congruence.
Qed.

Lemma comprehension_absent items : forall k acc d,
  dict_comprehension np_dtype items acc = Ok d ->
  dict_get k d = None -> misses k items.
Proof.
  induction items as [|[t v] items IH]; intros k acc d Hd Hg; [constructor|].
  cbn [dict_comprehension] in Hd. apply bind_Ok_inv in Hd as [k' [Hk' Hd]].
  pose proof (IH k _ d Hd Hg) as Hm.
  constructor; [|exact Hm]. cbn [fst]. intros Hk.
  assert (k' = k) as -> by congruence.
  rewrite (comprehension_untouched items k _ d Hm Hd), dict_get_set_eq in Hg.
  discriminate.
Qed.

Lemma getitem_lookup (F : Facade) d tag k :
  get_instantiations F = Ok d -> np_dtype tag = Ok k ->
  TemplateType1_getitem np_dtype F tag =
  match dict_get k d with
  | Some ty => Ok ty
  | None => Raise UnknownVariantError
  end.
Proof.
  intros Hd Hk. unfold TemplateType1_getitem. rewrite Hd, Hk. reflexivity.
Qed.

Lemma stub_message_names (name : string) :
  String.prefix name (stub_message name) = true.
Proof.
  unfold stub_message. generalize (" cannot be instantiated directly. Select a specific type with "
       +:+ name +:+ "[...].") as rest.
  induction name as [|c name IH]; intros rest; simpl.
  - destruct rest; reflexivity.
  - destruct (Ascii.ascii_dec c c); [apply IH | contradiction].
Qed.

(** Without a [__new__] of its own in the representative's namespace, or
    with one that gives an instance or is a builtin wrapper, calling the
    class ends in the stub. *)
Lemma type_call_stub name items (F : Facade) rep args :
  make_template_type1 np_dtype type_new_check name items = Ok F ->
  get_representative F = Ok rep ->
  (cls_dict rep !! "__new__" = None \/
   cls_dict rep !! "__new__" = Some ABuiltinNew \/
   exists body, cls_dict rep !! "__new__" = Some (AStaticNew body) /\
                body args = NewInstance) ->
  type_call F args = Raise (DirectInstantiationError (stub_message name)).
Proof.
  intros HF Hrep Hnew.
  apply make_template_type1_inv in HF
    as [d [rep' [_ [_ [_ [Hrep' [Hname [Hinit [Hfwd Habs]]]]]]]]].
  assert (rep' = rep) as -> by congruence.
  assert (call_init F (PyInstance (fa_name F)) args
          = Raise (DirectInstantiationError (stub_message name))) as Hcall.
  { unfold call_init. rewrite Hinit. unfold _init_stub. cbn [type_name_of].
    rewrite Hname. reflexivity. }
  unfold type_call.
  destruct Hnew as [Hnone | [Hwrap | [body [Hbody Hres]]]].
  - rewrite (Habs "__new__") by (discriminate || exact Hnone).
    rewrite Hcall. reflexivity.
  - rewrite (Hfwd "__new__" ABuiltinNew) by (discriminate || exact Hwrap).
    rewrite Hcall. reflexivity.
  - rewrite (Hfwd "__new__" (AStaticNew body)) by (discriminate || exact Hbody).
    rewrite Hres, Hcall. reflexivity.
Qed.

(** ** The claims about the template type *)

(** C3: for a class built from at least one instantiation,
    [__instancecheck__] answers true exactly when the value is an
    instance of one of the registered types, and [__subclasscheck__]
    exactly when the candidate is a subclass of one of them: false when
    none matches.  The registered types are the values under which some
    dtype resolves. *)
Theorem checks_are_any name items (F : Facade) :
  make_template_type1 np_dtype type_new_check name items = Ok F ->
  exists d,
    get_instantiations F = Ok d /\ d <> [] /\
    (forall ty, In ty (dict_values d) <-> exists k, dict_get k d = Some ty) /\
    (forall value, exists b,
        TemplateType1_instancecheck isinstance F value = Ok b /\
        (b = true <->
         exists ty, In ty (dict_values d) /\ isinstance value ty = true)) /\
    (forall candidate, exists b,
        TemplateType1_subclasscheck issubclass F candidate = Ok b /\
        (b = true <->
         exists ty, In ty (dict_values d) /\ issubclass candidate ty = true)).
Proof.
  intros HF.
  apply make_template_type1_inv in HF as [d [rep [Hd [Hrep [Hget _]]]]].
  exists d. split; [exact Hget|]. split.
  { intros ->. discriminate Hrep. }
  split.
  { intros ty. split.
    - apply dict_values_get.
      apply (comprehension_NoDup items [] d (List.NoDup_nil _) Hd).
    - intros [k Hk]. eapply dict_get_values. exact Hk. }
  split.
  - intros value. eexists. split.
    + unfold TemplateType1_instancecheck. rewrite Hget. reflexivity.
    + apply List.existsb_exists.
  - intros candidate. eexists. split.
    + unfold TemplateType1_subclasscheck. rewrite Hget. reflexivity.
    + apply List.existsb_exists.
Qed.

(** C4, as the code has it: [cls[tag]] first normalizes the tag with
    [np.dtype].  For a tag that [np.dtype] accepts it gives exactly the
    type stored under the canonical dtype, which is the type of the last
    supplied entry whose tag has that dtype, and it fails with [KeyError]
    (the specification's [UnknownVariantError]) exactly when no supplied
    tag has it.  For a tag that [np.dtype] rejects it fails with the
    exception of [np.dtype], before any lookup. *)
Theorem getitem_resolves name items (F : Facade) tag :
  make_template_type1 np_dtype type_new_check name items = Ok F ->
  exists d,
    get_instantiations F = Ok d /\
    (forall e, np_dtype tag = Raise e ->
               TemplateType1_getitem np_dtype F tag = Raise e) /\
    (forall k, np_dtype tag = Ok k ->
       TemplateType1_getitem np_dtype F tag =
         match dict_get k d with
         | Some ty => Ok ty
         | None => Raise UnknownVariantError
         end /\
       (forall ty,
           TemplateType1_getitem np_dtype F tag = Ok ty <->
           exists pre t post,
             items = pre ++ (t, ty) :: post /\ np_dtype t = Ok k /\ misses k post) /\
       (TemplateType1_getitem np_dtype F tag = Raise UnknownVariantError <->
        misses k items)).
Proof.
  intros HF.
  apply make_template_type1_inv in HF as [d [rep [Hd [_ [Hget _]]]]].
  exists d. split; [exact Hget|]. split.
  { intros e He. unfold TemplateType1_getitem. rewrite Hget, He. reflexivity. }
  intros k Hk.
  pose proof (getitem_lookup F d tag k Hget Hk) as Hlook.
  split; [exact Hlook|]. rewrite Hlook.
  split.
  - intros ty. split.
    + destruct (dict_get k d) as [ty'|] eqn:Hg; [|discriminate].
      intros [= ->].
      destruct (comprehension_inv items k ty [] d Hd Hg) as [[Habs _]|Hdec];
        [discriminate Habs | exact Hdec].
    + intros [pre [t [post [-> [Ht Hm]]]]].
      rewrite (comprehension_last pre t ty post k [] d Hd Ht Hm). reflexivity.
  - split.
    + destruct (dict_get k d) as [ty'|] eqn:Hg; [discriminate|]. intros _.
      eapply comprehension_absent; eassumption.
    + intros Hm. rewrite (comprehension_untouched items k [] d Hm Hd). reflexivity.
Qed.

(** C6, as the code has it: building from no entry fails with
    [StopIteration] (the specification's [EmptyRegistryError]).  Building
    from at least one entry whose tags [np.dtype] all understands reaches
    class creation with the assembled namespace: it succeeds when
    [type.__new__] accepts that namespace and fails with the exception of
    [type.__new__] otherwise. *)
Theorem make_template_type1_builds name :
  make_template_type1 np_dtype type_new_check name [] = Raise EmptyRegistryError /\
  (forall items,
      items <> [] -> understood items ->
      exists d rep,
        dict_comprehension np_dtype items [] = Ok d /\
        first_value d = Ok rep /\
        (type_new_check name
           (assembled {[ "instantiations" := NsMapping items ]} d rep) = Ok tt ->
         exists F : Facade,
           make_template_type1 np_dtype type_new_check name items = Ok F) /\
        (forall e,
            type_new_check name
              (assembled {[ "instantiations" := NsMapping items ]} d rep) = Raise e ->
            make_template_type1 np_dtype type_new_check name items = Raise e)).
Proof.
  split.
  - unfold make_template_type1, TemplateType1_new, instantiations_items.
    rewrite lookup_singleton_eq. reflexivity.
  - intros items Hne Hu.
    destruct (comprehension_total items [] Hu) as [d Hd].
    assert (exists rep, first_value d = Ok rep) as [rep Hrep].
    { destruct items as [|[t0 v0] rest]; [congruence|].
      pose proof Hd as Hd0.
      cbn [dict_comprehension] in Hd0. apply bind_Ok_inv in Hd0 as [k0 [_ Hd0]].
      apply comprehension_head in Hd0 as [v1 [d' ->]].
      exists v1. reflexivity. }
    exists d, rep. split; [exact Hd|]. split; [exact Hrep|].
    unfold make_template_type1, TemplateType1_new, instantiations_items, type_new.
    rewrite lookup_singleton_eq. cbn [bind]. rewrite Hd. cbn [bind].
    rewrite Hrep. cbn [bind].
    split.
    + intros ->. cbn [bind]. eexists. reflexivity.
    + intros e ->. reflexivity.
Qed.

(** C8, as the code has it: the representative is the type that the
    first supplied tag resolves to, which is the value of the last
    supplied entry whose tag has the dtype of the first tag, and so the
    first supplied value when no later tag has that dtype.  Every entry of
    the representative's own namespace, under a name other than
    [__instantiations__], [__representative__] and [__init__] (and other
    than [__qualname__] and [__classcell__], which class creation
    consumes), is in the namespace of the built class with the same
    value. *)
Theorem representative_forwarding name items (F : Facade) :
  make_template_type1 np_dtype type_new_check name items = Ok F ->
  exists t0 v0 rest k0 rep,
    items = (t0, v0) :: rest /\ np_dtype t0 = Ok k0 /\
    get_representative F = Ok rep /\
    TemplateType1_getitem np_dtype F t0 = Ok rep /\
    (forall pre t v post,
        items = pre ++ (t, v) :: post -> np_dtype t = Ok k0 -> misses k0 post ->
        rep = v) /\
    (misses k0 rest -> rep = v0) /\
    (forall a x, a <> "__instantiations__" -> a <> "__representative__" ->
                 a <> "__init__" -> a <> "__qualname__" -> a <> "__classcell__" ->
                 cls_dict rep !! a = Some x ->
                 fa_dict F !! a = Some (NsAttr x)).
Proof.
  intros HF.
  apply make_template_type1_inv in HF
    as [d [rep [Hd [Hrep [Hget [Hgetrep [_ [_ [Hattr _]]]]]]]]].
  destruct items as [|[t0 v0] rest].
  { cbn in Hd. injection Hd as <-. discriminate Hrep. }
  pose proof Hd as Hd0.
  cbn [dict_comprehension] in Hd0. apply bind_Ok_inv in Hd0 as [k0 [Hk0 Hd0]].
  apply comprehension_head in Hd0 as [v1 [d' ->]].
  unfold first_value in Hrep. cbn [dict_values map snd] in Hrep. injection Hrep as ->.
  assert (dict_get k0 ((k0, rep) :: d') = Some rep) as Hg.
  { cbn [dict_get]. destruct (decide (k0 = k0)); congruence. }
  assert (forall pre t v post,
             (t0, v0) :: rest = pre ++ (t, v) :: post -> np_dtype t = Ok k0 ->
             misses k0 post -> rep = v) as Hlast.
  { intros pre t v post Hsplit Ht Hm. rewrite Hsplit in Hd.
    pose proof (comprehension_last pre t v post k0 [] _ Hd Ht Hm) as Hv.
    congruence. }
  exists t0, v0, rest, k0, rep.
  split; [reflexivity|]. split; [exact Hk0|]. split; [exact Hgetrep|].
  split; [rewrite (getitem_lookup F _ t0 k0 Hget Hk0), Hg; reflexivity|].
  split; [exact Hlast|]. split; [|exact Hattr].
  intros Hm. apply (Hlast [] t0 v0 rest eq_refl Hk0 Hm).
Qed.

(** C10: the keys of the dictionary of instantiations are the canonical
    dtypes of the supplied tags, so two supplied tags with the same
    dtype share one entry, whose value is that of the later one (no tag
    after it having that dtype); subscripting with either tag gives that
    later type, and the representative is the first value of the
    dictionary so obtained. *)
Theorem colliding_tags name items (F : Facade) pre t1 v1 mid t2 v2 post k :
  make_template_type1 np_dtype type_new_check name items = Ok F ->
  items = pre ++ (t1, v1) :: mid ++ (t2, v2) :: post ->
  np_dtype t1 = Ok k -> np_dtype t2 = Ok k -> misses k post ->
  exists d rep,
    dict_comprehension np_dtype items [] = Ok d /\
    get_instantiations F = Ok d /\
    (exists d1 d2, d = d1 ++ (k, v2) :: d2 /\
                   ~ In k (dict_keys d1) /\ ~ In k (dict_keys d2)) /\
    TemplateType1_getitem np_dtype F t1 = Ok v2 /\
    TemplateType1_getitem np_dtype F t2 = Ok v2 /\
    get_representative F = Ok rep /\
    first_value d = Ok rep.
Proof.
  intros HF Hitems Hk1 Hk2 Hm.
  apply make_template_type1_inv in HF
    as [d [rep [Hd [Hrep [Hget [Hgetrep _]]]]]].
  assert (dict_get k d = Some v2) as Hg.
  { rewrite Hitems in Hd.
    replace (pre ++ (t1, v1) :: mid ++ (t2, v2) :: post)
      with ((pre ++ (t1, v1) :: mid) ++ (t2, v2) :: post) in Hd
      by (rewrite <- List.app_assoc; reflexivity).
    eapply comprehension_last; eassumption. }
  exists d, rep.
  split; [exact Hd|]. split; [exact Hget|]. split.
  { apply dict_get_single; [|exact Hg].
    apply (comprehension_NoDup items [] d (List.NoDup_nil _) Hd). }
  split; [rewrite (getitem_lookup F d t1 k Hget Hk1), Hg; reflexivity|].
  split; [rewrite (getitem_lookup F d t2 k Hget Hk2), Hg; reflexivity|].
  split; assumption.
Qed.

End TemplateTypeFacts.

(** ** The claims on the worked examples *)

Lemma checks_are_any_witness :
  Demo.make "Graph" [(Demo.str_int32, Demo.TypeA); (Demo.str_int64, Demo.TypeB)]
    = Ok Demo.Graph /\
  exists d,
    get_instantiations Demo.Graph = Ok d /\ d <> [] /\
    (forall ty, In ty (dict_values d) <-> exists k, dict_get k d = Some ty) /\
    (forall value, exists b,
        TemplateType1_instancecheck Demo.isinstance Demo.Graph value = Ok b /\
        (b = true <->
         exists ty, In ty (dict_values d) /\ Demo.isinstance value ty = true)) /\
    (forall candidate, exists b,
        TemplateType1_subclasscheck Demo.issubclass Demo.Graph candidate = Ok b /\
        (b = true <->
         exists ty, In ty (dict_values d) /\ Demo.issubclass candidate ty = true)).
Proof.
  split; [vm_compute; reflexivity|].
  apply (checks_are_any Demo.np_dtype Demo.isinstance Demo.issubclass
           Demo.type_new_check "Graph"
           [(Demo.str_int32, Demo.TypeA); (Demo.str_int64, Demo.TypeB)]).
  vm_compute. reflexivity.
Defined.

(** An instance of a registered type passes the check, an unrelated object
    does not. *)
Example Graph_instancecheck :
  TemplateType1_instancecheck Demo.isinstance Demo.Graph (PyInstance "TypeA") = Ok true /\
  TemplateType1_instancecheck Demo.isinstance Demo.Graph (PyInt 7) = Ok false /\
  TemplateType1_subclasscheck Demo.issubclass Demo.Graph Demo.TypeB = Ok true /\
  TemplateType1_subclasscheck Demo.issubclass Demo.Graph Demo.TypeN = Ok false.
Proof. vm_compute. auto. Qed.

Lemma getitem_resolves_witness :
  Demo.make "Graph" [(Demo.str_int32, Demo.TypeA); (Demo.str_int64, Demo.TypeB)]
    = Ok Demo.Graph /\
  exists d,
    get_instantiations Demo.Graph = Ok d /\
    (forall e, Demo.np_dtype Demo.str_i4 = Raise e ->
               TemplateType1_getitem Demo.np_dtype Demo.Graph Demo.str_i4 = Raise e) /\
    (forall k, Demo.np_dtype Demo.str_i4 = Ok k ->
       TemplateType1_getitem Demo.np_dtype Demo.Graph Demo.str_i4 =
         match dict_get k d with
         | Some ty => Ok ty
         | None => Raise UnknownVariantError
         end /\
       (forall ty,
           TemplateType1_getitem Demo.np_dtype Demo.Graph Demo.str_i4 = Ok ty <->
           exists pre t post,
             [(Demo.str_int32, Demo.TypeA); (Demo.str_int64, Demo.TypeB)]
               = pre ++ (t, ty) :: post /\
             Demo.np_dtype t = Ok k /\
             List.Forall (fun e => Demo.np_dtype (fst e) <> Ok k) post) /\
       (TemplateType1_getitem Demo.np_dtype Demo.Graph Demo.str_i4
          = Raise UnknownVariantError <->
        List.Forall (fun e => Demo.np_dtype (fst e) <> Ok k)
          [(Demo.str_int32, Demo.TypeA); (Demo.str_int64, Demo.TypeB)])).
Proof.
  split; [vm_compute; reflexivity|].
  apply (getitem_resolves Demo.np_dtype Demo.type_new_check "Graph"
           [(Demo.str_int32, Demo.TypeA); (Demo.str_int64, Demo.TypeB)]
           Demo.Graph Demo.str_i4).
  vm_compute. reflexivity.
Defined.

(** C4 as stated does not hold for every tag: with a tag that [np.dtype]
    does not understand the subscript gives neither a registered type nor
    [KeyError], it raises the [TypeError] of [np.dtype]. *)
Lemma rejected_tag_is_no_key_error :
  TemplateType1_getitem Demo.np_dtype Demo.Graph Demo.str_bogus
    = Raise (TypeError "data type 'bogus' not understood") /\
  ~ (forall name items F tag,
        Demo.make name items = Ok F ->
        (exists ty, TemplateType1_getitem Demo.np_dtype F tag = Ok ty) \/
        TemplateType1_getitem Demo.np_dtype F tag = Raise UnknownVariantError).
Proof.
  split; [vm_compute; reflexivity|].
  intros Hall.
  destruct (Hall "Graph"
              [(Demo.str_int32, Demo.TypeA); (Demo.str_int64, Demo.TypeB)]
              Demo.Graph Demo.str_bogus) as [[ty Hty]|Herr].
  - vm_compute. reflexivity.
  - vm_compute in Hty. discriminate Hty.
  - vm_compute in Herr. discriminate Herr.
Qed.

(** The registry scenario of the specification. *)
Example Graph_getitem :
  TemplateType1_getitem Demo.np_dtype Demo.Graph Demo.str_int32 = Ok Demo.TypeA /\
  TemplateType1_getitem Demo.np_dtype Demo.Graph Demo.str_int64 = Ok Demo.TypeB /\
  TemplateType1_getitem Demo.np_dtype Demo.Graph Demo.str_float32
    = Raise UnknownVariantError /\
  TemplateType1_getitem Demo.np_dtype Demo.Graph Demo.str_bogus
    = Raise (TypeError "data type 'bogus' not understood").
Proof. vm_compute. auto. Qed.

(** C6 as stated does not hold: a mapping with one entry is not built
    when [np.dtype] does not understand its tag, nor when [type.__new__]
    rejects the namespace copied from its type (here a slot that clashes
    with the copied member of the same name). *)
Lemma nonempty_mapping_not_built :
  Demo.make "Graph" [(Demo.str_bogus, Demo.TypeA)]
    = Raise (TypeError "data type 'bogus' not understood") /\
  Demo.make "Graph" [(Demo.str_int32, Demo.TypeS)]
    = Raise (ValueError "'x' in __slots__ conflicts with class variable") /\
  ~ (forall name items, items <> [] -> exists F, Demo.make name items = Ok F).
Proof.
  split; [vm_compute; reflexivity|]. split; [vm_compute; reflexivity|].
  intros Hall.
  destruct (Hall "Graph" [(Demo.str_bogus, Demo.TypeA)]) as [F HF];
    [discriminate|].
  vm_compute in HF. discriminate HF.
Qed.

Lemma make_template_type1_builds_witness :
  Demo.make "Graph" [] = Raise EmptyRegistryError /\
  exists F,
    Demo.make "Graph" [(Demo.str_int32, Demo.TypeA); (Demo.str_int64, Demo.TypeB)]
    = Ok F.
Proof.
  split.
  - apply (make_template_type1_builds Demo.np_dtype Demo.type_new_check "Graph").
  - destruct (proj2 (make_template_type1_builds Demo.np_dtype Demo.type_new_check "Graph")
                [(Demo.str_int32, Demo.TypeA); (Demo.str_int64, Demo.TypeB)])
      as [d [rep [Hd [Hrep [Hbuilds _]]]]].
    + discriminate.
    + repeat constructor; eexists; reflexivity.
    + apply Hbuilds.
      vm_compute in Hd. injection Hd as <-.
      vm_compute in Hrep. injection Hrep as <-.
      vm_compute. reflexivity.
Defined.

(** C8 as stated does not hold: with the tags ['int32'] and ['i4'] the
    representative is the type supplied second; and an attribute that the
    representative only inherits is part of what the representative shows
    as a class but is not in the namespace of the built class. *)
Lemma representative_not_first_supplied :
  ~ (forall name t v rest F,
        Demo.make name ((t, v) :: rest) = Ok F -> get_representative F = Ok v) /\
  ~ (forall name items F rep a x,
        Demo.make name items = Ok F -> get_representative F = Ok rep ->
        a <> "__instantiations__" -> a <> "__representative__" -> a <> "__init__" ->
        class_getattr rep a = Some x -> fa_dict F !! a = Some (NsAttr x)).
Proof.
  split.
  - intros Hall.
    destruct (Demo.make "Graph"
                [(Demo.str_int32, Demo.TypeA); (Demo.str_i4, Demo.TypeB)])
      as [F|e] eqn:HF; [|vm_compute in HF; discriminate HF].
    pose proof (Hall _ _ _ _ _ HF) as Hrep.
    vm_compute in HF. injection HF as <-.
    vm_compute in Hrep. discriminate Hrep.
  - intros Hall.
    destruct (Demo.make "Graph" [(Demo.str_int32, Demo.TypeC)])
      as [F|e] eqn:HF; [|vm_compute in HF; discriminate HF].
    assert (get_representative F = Ok Demo.TypeC) as Hrep.
    { vm_compute in HF. injection HF as <-. vm_compute. reflexivity. }
    pose proof (Hall "Graph" _ F Demo.TypeC "base_attr" (AData (PyInt 1)) HF Hrep
                  ltac:(discriminate) ltac:(discriminate) ltac:(discriminate)
                  eq_refl) as Hattr.
    vm_compute in HF. injection HF as <-.
    vm_compute in Hattr. discriminate Hattr.
Qed.

Lemma representative_forwarding_witness :
  exists F,
    Demo.make "Graph" [(Demo.str_int32, Demo.TypeA); (Demo.str_i4, Demo.TypeB)]
      = Ok F /\
    exists t0 v0 rest k0 rep,
      [(Demo.str_int32, Demo.TypeA); (Demo.str_i4, Demo.TypeB)]
        = (t0, v0) :: rest /\
      Demo.np_dtype t0 = Ok k0 /\
      get_representative F = Ok rep /\
      TemplateType1_getitem Demo.np_dtype F t0 = Ok rep /\
      (forall pre t v post,
          [(Demo.str_int32, Demo.TypeA); (Demo.str_i4, Demo.TypeB)]
            = pre ++ (t, v) :: post ->
          Demo.np_dtype t = Ok k0 ->
          List.Forall (fun e => Demo.np_dtype (fst e) <> Ok k0) post ->
          rep = v) /\
      (List.Forall (fun e => Demo.np_dtype (fst e) <> Ok k0) rest -> rep = v0) /\
      (forall a x, a <> "__instantiations__" -> a <> "__representative__" ->
                   a <> "__init__" -> a <> "__qualname__" -> a <> "__classcell__" ->
                   cls_dict rep !! a = Some x ->
                   fa_dict F !! a = Some (NsAttr x)).
Proof.
  eexists. split; [vm_compute; reflexivity|].
  apply (representative_forwarding Demo.np_dtype Demo.type_new_check "Graph").
  vm_compute. reflexivity.
Defined.

(** The class built from a type that inherits [base_attr]: the type's own
    [itemsize] is forwarded, the inherited [base_attr] is not. *)
Example inherited_not_forwarded :
  exists F,
    Demo.make "Graph" [(Demo.str_int32, Demo.TypeC)] = Ok F /\
    class_getattr Demo.TypeC "base_attr" = Some (AData (PyInt 1)) /\
    fa_dict F !! "base_attr" = None /\
    fa_dict F !! "itemsize" = Some (NsAttr (AData (PyInt 2))).
Proof. eexists. split; [vm_compute; reflexivity|]. vm_compute. auto. Qed.

Example collapsed_representative :
  exists F,
    Demo.make "Graph" [(Demo.str_int32, Demo.TypeA); (Demo.str_i4, Demo.TypeB)]
      = Ok F /\
    get_instantiations F = Ok [(Demo.dt_int32, Demo.TypeB)] /\
    get_representative F = Ok Demo.TypeB /\
    fa_dict F !! "itemsize" = Some (NsAttr (AData (PyInt 8))).
Proof. eexists. split; [vm_compute; reflexivity|]. vm_compute. auto. Qed.

Lemma colliding_tags_witness :
  exists F,
    Demo.make "Graph"
      [(Demo.str_int32, Demo.TypeA); (Demo.str_int64, Demo.TypeA);
       (Demo.obj_int32, Demo.TypeB)] = Ok F /\
    exists d rep,
      dict_comprehension Demo.np_dtype
        [(Demo.str_int32, Demo.TypeA); (Demo.str_int64, Demo.TypeA);
         (Demo.obj_int32, Demo.TypeB)] [] = Ok d /\
      get_instantiations F = Ok d /\
      (exists d1 d2, d = d1 ++ (Demo.dt_int32, Demo.TypeB) :: d2 /\
                     ~ In Demo.dt_int32 (dict_keys d1) /\
                     ~ In Demo.dt_int32 (dict_keys d2)) /\
      TemplateType1_getitem Demo.np_dtype F Demo.str_int32 = Ok Demo.TypeB /\
      TemplateType1_getitem Demo.np_dtype F Demo.obj_int32 = Ok Demo.TypeB /\
      get_representative F = Ok rep /\
      first_value d = Ok rep.
Proof.
  eexists. split; [vm_compute; reflexivity|].
  apply (colliding_tags Demo.np_dtype Demo.type_new_check "Graph"
           [(Demo.str_int32, Demo.TypeA); (Demo.str_int64, Demo.TypeA);
            (Demo.obj_int32, Demo.TypeB)]
           _ [] Demo.str_int32 Demo.TypeA [(Demo.str_int64, Demo.TypeA)]
           Demo.obj_int32 Demo.TypeB [] Demo.dt_int32).
  - vm_compute. reflexivity.
  - reflexivity.
  - reflexivity.
  - reflexivity.
  - constructor.
Defined.

(** Calling a class built from ordinary types ends in the stub, whose
    message names the class. *)
Example Graph_call :
  type_call Demo.Graph [] =
  Raise (DirectInstantiationError
           "Graph cannot be instantiated directly. Select a specific type with Graph[...].").
Proof. vm_compute. reflexivity. Qed.

(** The builtin [__new__] of a type implemented in C is copied too, but
    calling the built class does not use it and ends in the stub. *)
Example builtin_new_ignored :
  exists F,
    Demo.make "Graph" [(Demo.str_int32, Demo.TypeW)] = Ok F /\
    fa_dict F !! "__new__" = Some (NsAttr ABuiltinNew) /\
    type_call F [] = Raise (DirectInstantiationError (stub_message "Graph")).
Proof. eexists. split; [vm_compute; reflexivity|]. vm_compute. auto. Qed.

(** C5 on the code: the class built from a representative whose namespace
    has a [__new__] takes that [__new__] over with the rest of the
    namespace; when it hands back an object that is no instance of the
    class, calling the class gives that object and the stub that raises
    the error never runs. *)
Theorem direct_call_bypasses_stub :
  exists F,
    Demo.make "Graph" [(Demo.str_int32, Demo.TypeN)] = Ok F /\
    fa_dict F !! "__init__" = Some (NsInitStub None) /\
    type_call F [] = Ok (PyInt 42).
Proof. eexists. split; [vm_compute; reflexivity|]. vm_compute. auto. Qed.

(** * Further properties of [galois.py] *)

Lemma to_list_bounds (r : PyRange) (x : N) :
  In x (to_list r) <-> start r <= x /\ x < stop r.
Proof.
  destruct r as [a b]. change (mkRange a b) with (range2 a b).
  rewrite to_list_range2. cbn [start stop range2]. rewrite List.in_map_iff. split.
  - intros [y [<- Hy]]. apply List.in_seq in Hy. lia.
  - intros [Ha Hb]. exists (N.to_nat x). split; [apply N2Nat.id|].
    apply List.in_seq. lia.
Qed.

Lemma edges_impl_defined (g : PropertyGraph) (n : N) (r : PyRange) :
  edges_impl g n = Ok r -> n < num_nodes g.
Proof.
  unfold edges_impl. intros Hr.
  apply bind_Ok_inv in Hr as [p [_ Hr]]. apply bind_Ok_inv in Hr as [e [He _]].
  destruct (N.lt_ge_cases n (num_nodes g)) as [Hlt|Hge]; [exact Hlt|].
  rewrite (edge_index_out_of_range g n Hge) in He. discriminate He.
Qed.

Lemma last_cons_default (l : list N) (x p : N) : List.last (x :: l) p = List.last l x.
Proof.
  destruct l as [|y l]; [reflexivity|].
  change (List.last (y :: l) p = List.last (y :: l) x). apply last_default. discriminate.
Qed.

Lemma monotone_le_last (l : list N) : forall p : N,
  monotone p l = true -> p <= List.last l p.
Proof.
  induction l as [|x l IH]; intros p Hm; [simpl; lia|].
  cbn [monotone] in Hm. apply andb_prop in Hm as [Hpx Hm].
  apply N.leb_le in Hpx. rewrite last_cons_default.
  pose proof (IH x Hm). lia.
Qed.

Lemma monotone_nth_le_last (l : list N) : forall (p : N) (k : nat),
  monotone p l = true -> (k < length l)%nat -> nth k l 0 <= List.last l p.
Proof.
  induction l as [|x l IH]; intros p k Hm Hk; cbn [length] in Hk; [lia|].
  cbn [monotone] in Hm. apply andb_prop in Hm as [_ Hm].
  rewrite last_cons_default. destruct k as [|k].
  - simpl. apply monotone_le_last. exact Hm.
  - change (nth k l 0 <= List.last l x). apply IH; [exact Hm | lia].
Qed.

(** X1: [len] of a graph is the number of values that iterating [nodes()]
    gives, and those values are exactly the numbers below [len]. *)
Theorem len_counts_nodes (g : PropertyGraph) :
  len_impl g = N.of_nat (length (to_list (nodes_impl g))) /\
  (forall n, In n (to_list (nodes_impl g)) <-> n < len_impl g).
Proof.
  split.
  - unfold nodes_impl, len_impl. rewrite to_list_range1, length_map, length_seq. lia.
  - intros n. rewrite to_list_bounds. unfold nodes_impl, len_impl, range1.
    cbn [start stop]. lia.
Qed.

(** X2: [edges(n)] returns a range exactly for the values that [nodes()]
    gives; for every other [n] it raises. *)
Theorem edges_defined_on_nodes (g : PropertyGraph) (n : N) :
  In n (to_list (nodes_impl g)) <-> exists r, edges_impl g n = Ok r.
Proof.
  rewrite to_list_bounds. unfold nodes_impl, range1. cbn [start stop]. split.
  - intros [_ Hn]. unfold num_nodes in Hn.
    rewrite <- (N2Nat.id n). rewrite edges_impl_nth by lia. eauto.
  - intros [r Hr]. apply edges_impl_defined in Hr. lia.
Qed.

(** X3: the range of a node begins where the range of the node before it
    ends, whatever the array of range ends holds. *)
Theorem edges_adjoin (g : PropertyGraph) (n : N) (r1 r2 : PyRange) :
  edges_impl g n = Ok r1 -> edges_impl g (n + 1) = Ok r2 -> start r2 = stop r1.
Proof.
  unfold edges_impl. intros H1 H2.
  apply bind_Ok_inv in H1 as [p1 [_ H1]]. apply bind_Ok_inv in H1 as [e1 [He1 H1]].
  injection H1 as <-.
  destruct (N.eqb_spec (n + 1) 0) as [H0|_]; [lia|].
  replace (n + 1 - 1) with n in H2 by lia. rewrite He1 in H2. cbn [bind] in H2.
  apply bind_Ok_inv in H2 as [e2 [_ H2]]. injection H2 as <-. reflexivity.
Qed.

Lemma edges_adjoin_witness :
  edges_impl Demo.g3 1 = Ok (range2 0 2) /\
  edges_impl Demo.g3 (1 + 1) = Ok (range2 2 2) /\
  start (range2 2 2) = stop (range2 0 2).
Proof.
  split; [reflexivity|]. split; [reflexivity|].
  apply (edges_adjoin Demo.g3 1); reflexivity.
Defined.

(** X4: on a valid input every edge identifier that iterating [edges(n)]
    gives lies in the range and below the number of edges. *)
Theorem edges_within_edge_array (g : PropertyGraph) (n : N) (r : PyRange) (e : N) :
  valid_csr g = true -> edges_impl g n = Ok r -> In e (to_list r) ->
  start r <= e /\ e < stop r /\ stop r <= num_edges g.
Proof.
  intros Hv Hr He. unfold valid_csr in Hv. apply andb_prop in Hv as [Hm Hlast].
  apply N.eqb_eq in Hlast. apply to_list_bounds in He as [Hs Ht].
  split; [exact Hs|]. split; [exact Ht|].
  pose proof (edges_impl_defined g n r Hr) as Hn. unfold num_nodes in Hn.
  rewrite <- (N2Nat.id n) in Hr. rewrite edges_impl_nth in Hr by lia.
  injection Hr as <-. cbn [stop range2]. rewrite <- Hlast.
  apply monotone_nth_le_last; [exact Hm | lia].
Qed.

Lemma edges_within_edge_array_witness :
  start (range2 0 2) <= 1 /\ 1 < stop (range2 0 2) /\
  stop (range2 0 2) <= num_edges Demo.g3.
Proof.
  apply (edges_within_edge_array Demo.g3 1 (range2 0 2) 1).
  - reflexivity.
  - reflexivity.
  - vm_compute. auto.
Defined.

(** X5: on a valid input, iterating [edges(n)] for the nodes in the order
    of [nodes()] gives every edge identifier [0, ..., num_edges - 1]
    exactly once and in increasing order. *)
Theorem edges_enumerate_edge_array (g : PropertyGraph) (rs : list PyRange) :
  valid_csr g = true ->
  for_each (edges_impl g) (to_list (nodes_impl g)) = Ok rs ->
  concat (map to_list rs) = map N.of_nat (seq 0 (N.to_nat (num_edges g))).
Proof.
  intros Hv Hrs. unfold valid_csr in Hv. apply andb_prop in Hv as [Hm Hlast].
  apply N.eqb_eq in Hlast.
  destruct (edges_prefix_enumerates g (length (out_indices g)) Hm (le_n _))
    as [rs' [Hrs' Hcat]].
  unfold nodes_impl in Hrs. rewrite to_list_range1 in Hrs. unfold num_nodes in Hrs.
  rewrite Nat2N.id, Hrs' in Hrs. injection Hrs as <-.
  rewrite Hcat, nth_length_last, Hlast. reflexivity.
Qed.

Lemma edges_enumerate_edge_array_witness :
  concat (map to_list [range2 0 0; range2 0 2; range2 2 2]) =
  map N.of_nat (seq 0 (N.to_nat (num_edges Demo.g3))).
Proof.
  apply (edges_enumerate_edge_array Demo.g3); reflexivity.
Defined.

(** * Further properties of [template_type.py] *)

Section DictMore.
Context {K V : Type} `{EqDecision K}.
Implicit Types (k : K) (v : V) (d : list (K * V)).

Lemma dict_keys_get k d : In k (dict_keys d) <-> exists v, dict_get k d = Some v.
Proof.
  induction d as [|[k' v'] d IH]; simpl.
  - split; [contradiction | intros [v Hv]; discriminate].
  - destruct (decide (k = k')) as [->|Hne].
    + split; eauto.
    + rewrite <- IH. intuition congruence.
Qed.

Lemma dict_set_length k v d : (length (dict_set k v d) <= S (length d))%nat.
Proof.
  induction d as [|[k' v'] d IH]; simpl; [lia|].
  destruct (decide (k = k')); simpl; lia.
Qed.

Lemma dict_set_values k v d (w : V) :
  In w (dict_values (dict_set k v d)) -> w = v \/ In w (dict_values d).
Proof.
  induction d as [|[k' v'] d IH]; simpl.
  - intuition congruence.
  - destruct (decide (k = k')); simpl; intuition congruence.
Qed.
End DictMore.

Section TemplateTypeMore.
Context {RawTag DType : Type} `{EqDecision DType}.
Variable np_dtype : RawTag -> PyResult DType.
Variable isinstance : PyObj -> PyClass -> bool.
Variable issubclass : PyClass -> PyClass -> bool.
Variable type_new_check : string -> gmap string (@NsValue RawTag DType) -> PyResult unit.

Implicit Types (items : list (RawTag * PyClass)) (d acc : list (DType * PyClass)).
Implicit Types (k : DType) (t : RawTag) (v ty rep : PyClass).

Local Abbreviation misses k items :=
  (List.Forall (fun e : RawTag * PyClass => np_dtype (fst e) <> Ok k) items).

Local Abbreviation understood items :=
  (List.Forall (fun e : RawTag * PyClass => exists k, np_dtype (fst e) = Ok k) items).

Lemma comprehension_error pre : forall t v post e acc,
  understood pre -> np_dtype t = Raise e ->
  dict_comprehension np_dtype (pre ++ (t, v) :: post) acc = Raise e.
Proof.
  induction pre as [|[t' v'] pre IH]; intros t v post e acc Hu He.
  - cbn [app dict_comprehension]. rewrite He. reflexivity.
  - inversion Hu as [|? ? [k Hk] Hu']; subst. cbn [fst] in Hk.
    cbn [app dict_comprehension]. rewrite Hk. cbn [bind]. apply IH; assumption.
Qed.

Lemma comprehension_length items : forall acc d,
  dict_comprehension np_dtype items acc = Ok d ->
  (length d <= length acc + length items)%nat.
Proof.
  induction items as [|[t v] items IH]; intros acc d Hd.
  - cbn in Hd. injection Hd as <-. lia.
  - cbn [dict_comprehension] in Hd. apply bind_Ok_inv in Hd as [k [_ Hd]].
    apply IH in Hd. pose proof (dict_set_length k v acc). cbn [length]. lia.
Qed.

Lemma comprehension_values items : forall acc d w,
  dict_comprehension np_dtype items acc = Ok d ->
  In w (dict_values d) -> In w (dict_values acc) \/ exists t, In (t, w) items.
Proof.
  induction items as [|[t v] items IH]; intros acc d w Hd Hw.
  - cbn in Hd. injection Hd as <-. left. exact Hw.
  - cbn [dict_comprehension] in Hd. apply bind_Ok_inv in Hd as [k [_ Hd]].
    destruct (IH _ d w Hd Hw) as [Hacc|[t' Ht']].
    + apply dict_set_values in Hacc as [->|Hacc]; [|left; exact Hacc].
      right. exists t. left. reflexivity.
    + right. exists t'. right. exact Ht'.
Qed.

Lemma comprehension_present items : forall t v k acc d,
  dict_comprehension np_dtype items acc = Ok d ->
  In (t, v) items -> np_dtype t = Ok k -> exists ty, dict_get k d = Some ty.
Proof.
  intros t v k acc d Hd Hin Hk.
  destruct (dict_get k d) as [ty|] eqn:Hg; [eauto|].
  pose proof (comprehension_absent np_dtype items k acc d Hd Hg) as Hm.
  rewrite List.Forall_forall in Hm. specialize (Hm _ Hin). cbn [fst] in Hm.
  contradiction.
Qed.

(** X6: when [np.dtype] rejects a supplied tag, the build fails with the
    exception of the first rejected tag, whatever comes after it and
    whatever the supplied types are. *)
Theorem first_rejected_tag_decides name pre t v post e :
  understood pre -> np_dtype t = Raise e ->
  make_template_type1 np_dtype type_new_check name (pre ++ (t, v) :: post) = Raise e.
Proof.
  intros Hu He.
  unfold make_template_type1, TemplateType1_new, instantiations_items.
  rewrite lookup_singleton_eq. cbn [bind].
  rewrite (comprehension_error pre t v post e [] Hu He). reflexivity.
Qed.

(** X7: in a built class every supplied tag resolves to some type, and
    when the supplied tags have pairwise different dtypes every spelling
    of a supplied tag resolves to the type supplied with it. *)
Theorem supplied_tags_resolve name items (F : Facade) :
  make_template_type1 np_dtype type_new_check name items = Ok F ->
  (forall t v, In (t, v) items ->
     exists ty, TemplateType1_getitem np_dtype F t = Ok ty) /\
  (List.NoDup (map (fun e : RawTag * PyClass => np_dtype (fst e)) items) ->
   forall t v t', In (t, v) items -> np_dtype t' = np_dtype t ->
     TemplateType1_getitem np_dtype F t' = Ok v).
Proof.
  intros HF.
  apply make_template_type1_inv in HF as [d [rep [Hd [_ [Hget _]]]]].
  pose proof (comprehension_understood np_dtype items [] d Hd) as Hu.
  rewrite List.Forall_forall in Hu.
  split.
  - intros t v Hin. destruct (Hu _ Hin) as [k Hk]. cbn [fst] in Hk.
    destruct (comprehension_present items t v k [] d Hd Hin Hk) as [ty Hty].
    exists ty. rewrite (getitem_lookup np_dtype F d t k Hget Hk), Hty. reflexivity.
  - intros Hnd t v t' Hin Ht'. destruct (Hu _ Hin) as [k Hk]. cbn [fst] in Hk.
    apply List.in_split in Hin as [pre [post Hsplit]]. subst items.
    rewrite map_app in Hnd. cbn [map fst] in Hnd.
    apply List.NoDup_remove_2 in Hnd.
    assert (misses k post) as Hm.
    { apply List.Forall_forall. intros e He Hek. apply Hnd.
      apply List.in_or_app. right. apply List.in_map_iff.
      exists e. split; [congruence | exact He]. }
    rewrite (getitem_lookup np_dtype F d t' k Hget ltac:(congruence)).
    rewrite (comprehension_last np_dtype pre t v post k [] d Hd Hk Hm). reflexivity.
Qed.

(** X8: the dictionary of instantiations of a built class has one key for
    each dtype of a supplied tag and no other, never more entries than
    were supplied, and only supplied types as values. *)
Theorem registry_keys name items (F : Facade) :
  make_template_type1 np_dtype type_new_check name items = Ok F ->
  exists d,
    get_instantiations F = Ok d /\
    List.NoDup (dict_keys d) /\
    (forall k, In k (dict_keys d) <->
               exists t v, In (t, v) items /\ np_dtype t = Ok k) /\
    (length d <= length items)%nat /\
    (forall ty, In ty (dict_values d) -> exists t, In (t, ty) items).
Proof.
  intros HF.
  apply make_template_type1_inv in HF as [d [rep [Hd [_ [Hget _]]]]].
  exists d. split; [exact Hget|]. split.
  { apply (comprehension_NoDup np_dtype items [] d (List.NoDup_nil _) Hd). }
  split.
  { intros k. rewrite dict_keys_get. split.
    - intros [w Hw].
      destruct (comprehension_inv np_dtype items k w [] d Hd Hw)
        as [[Habs _]|[pre [t [post [-> [Ht _]]]]]]; [discriminate Habs|].
      exists t, w. split; [|exact Ht]. apply List.in_or_app. right. left. reflexivity.
    - intros [t [v [Hin Hk]]]. eapply comprehension_present; eassumption. }
  split.
  { apply (comprehension_length items [] d Hd). }
  intros ty Hty.
  destruct (comprehension_values items [] d ty Hd Hty) as [[]|Hex]. exact Hex.
Qed.

(** X9: a type obtained by subscripting a class passes the checks of that
    class: its instances pass [__instancecheck__] and its subclasses pass
    [__subclasscheck__]; the same holds for the representative of a built
    class. *)
Theorem resolved_type_passes_checks name items (F : Facade) t ty :
  make_template_type1 np_dtype type_new_check name items = Ok F ->
  TemplateType1_getitem np_dtype F t = Ok ty ->
  (forall o, isinstance o ty = true ->
             TemplateType1_instancecheck isinstance F o = Ok true) /\
  (forall c, issubclass c ty = true ->
             TemplateType1_subclasscheck issubclass F c = Ok true) /\
  (forall rep o, get_representative F = Ok rep -> isinstance o rep = true ->
                 TemplateType1_instancecheck isinstance F o = Ok true).
Proof.
  intros HF Hty.
  apply make_template_type1_inv in HF as [d [rep [_ [Hrep [Hget [Hgetrep _]]]]]].
  unfold TemplateType1_getitem in Hty. rewrite Hget in Hty. cbn [bind] in Hty.
  apply bind_Ok_inv in Hty as [k [_ Hty]].
  destruct (dict_get k d) as [ty'|] eqn:Hg; [|discriminate].
  injection Hty as ->. apply dict_get_values in Hg.
  unfold TemplateType1_instancecheck, TemplateType1_subclasscheck.
  rewrite Hget. cbn [bind].
  split; [|split].
  - intros o Ho. f_equal. apply List.existsb_exists. eauto.
  - intros c Hc. f_equal. apply List.existsb_exists. eauto.
  - intros rep' o Hrep' Ho. assert (rep' = rep) as -> by congruence.
    apply first_value_get in Hrep as [k0 [d' [_ Hk0]]].
    apply dict_get_values in Hk0.
    f_equal. apply List.existsb_exists. eauto.
Qed.


(** X11: when the namespace of the representative has no [__new__],
    calling a built class with any arguments raises the [TypeError] of
    the stub, whose message begins with the name of the class, also when
    the representative has an [__init__] of its own. *)
Theorem direct_call_raises name items (F : Facade) rep args :
  make_template_type1 np_dtype type_new_check name items = Ok F ->
  get_representative F = Ok rep ->
  cls_dict rep !! "__new__" = None ->
  type_call F args = Raise (TypeError (stub_message name)) /\
  String.prefix name (stub_message name) = true.
Proof.
  intros HF Hrep Hnew. split; [|apply stub_message_names].
  apply (type_call_stub np_dtype type_new_check name items F rep args HF Hrep).
  left. exact Hnew.
Qed.

End TemplateTypeMore.

(** ** The further properties on the worked examples *)

Lemma first_rejected_tag_decides_witness :
  make_template_type1 Demo.np_dtype Demo.type_new_check "Graph"
    ([(Demo.str_int32, Demo.TypeA)] ++ (Demo.str_bogus, Demo.TypeB)
       :: [(Demo.str_int64, Demo.TypeB)])
  = Raise (TypeError "data type 'bogus' not understood").
Proof.
  apply (first_rejected_tag_decides Demo.np_dtype Demo.type_new_check).
  - constructor; [eexists; reflexivity | constructor].
  - reflexivity.
Defined.

Lemma supplied_tags_resolve_witness :
  TemplateType1_getitem Demo.np_dtype Demo.Graph Demo.str_i4 = Ok Demo.TypeA.
Proof.
  destruct (supplied_tags_resolve Demo.np_dtype Demo.type_new_check "Graph"
              [(Demo.str_int32, Demo.TypeA); (Demo.str_int64, Demo.TypeB)] Demo.Graph)
    as [_ Hround].
  - vm_compute. reflexivity.
  - apply (Hround) with (t := Demo.str_int32).
    + cbn [map fst Demo.np_dtype]. constructor.
      * intros [Heq|[]]. discriminate Heq.
      * constructor; [intros [] | constructor].
    + left. reflexivity.
    + reflexivity.
Defined.

Lemma registry_keys_witness :
  exists d,
    get_instantiations Demo.Graph = Ok d /\
    List.NoDup (dict_keys d) /\
    (forall k, In k (dict_keys d) <->
               exists t v,
                 In (t, v) [(Demo.str_int32, Demo.TypeA); (Demo.str_int64, Demo.TypeB)] /\
                 Demo.np_dtype t = Ok k) /\
    (length d <= 2)%nat /\
    (forall ty, In ty (dict_values d) ->
                exists t, In (t, ty) [(Demo.str_int32, Demo.TypeA);
                                      (Demo.str_int64, Demo.TypeB)]).
Proof.
  apply (registry_keys Demo.np_dtype Demo.type_new_check "Graph"
           [(Demo.str_int32, Demo.TypeA); (Demo.str_int64, Demo.TypeB)] Demo.Graph).
  vm_compute. reflexivity.
Defined.

Lemma resolved_type_passes_checks_witness :
  TemplateType1_instancecheck Demo.isinstance Demo.Graph (PyInstance "TypeA") = Ok true.
Proof.
  destruct (resolved_type_passes_checks Demo.np_dtype Demo.isinstance Demo.issubclass
              Demo.type_new_check "Graph"
              [(Demo.str_int32, Demo.TypeA); (Demo.str_int64, Demo.TypeB)]
              Demo.Graph Demo.str_i4 Demo.TypeA) as [Hinst _].
  - vm_compute. reflexivity.
  - vm_compute. reflexivity.
  - apply Hinst. reflexivity.
Defined.


(** A class body that sets [itemsize] and [extra]: the representative's
    [itemsize] replaces the one of the body, [extra] stays, and
    [instantiations] is gone. *)
Example class_body_namespace :
  exists F : @Facade Demo.Descr Demo.DT,
    TemplateType1_new Demo.np_dtype Demo.type_new_check "Graph"
      (<["itemsize" := NsAttr (AData (PyInt 1))]>
         (<["extra" := NsAttr (AData (PyInt 9))]>
            {[ "instantiations" := NsMapping [(Demo.str_int32, Demo.TypeA)] ]}))
    = Ok F /\
    fa_dict F !! "itemsize" = Some (NsAttr (AData (PyInt 4))) /\
    fa_dict F !! "extra" = Some (NsAttr (AData (PyInt 9))) /\
    fa_dict F !! "instantiations" = None.
Proof. eexists. split; [vm_compute; reflexivity|]. vm_compute. auto. Qed.

Lemma direct_call_raises_witness :
  type_call Demo.Graph [PyInt 1] = Raise (TypeError (stub_message "Graph")) /\
  String.prefix "Graph" (stub_message "Graph") = true.
Proof.
  apply (direct_call_raises Demo.np_dtype Demo.type_new_check "Graph"
           [(Demo.str_int32, Demo.TypeA); (Demo.str_int64, Demo.TypeB)]
           Demo.Graph Demo.TypeA [PyInt 1]).
  - vm_compute. reflexivity.
  - vm_compute. reflexivity.
  - vm_compute. reflexivity.
Defined.
